(** * mergemock: the mock execution engine backend

    A shallow embedding of the Engine API backend of mergemock
    ([EngineBackend] with [NewEngineBackend], [GetPayloadV1], [NewPayloadV1]
    and [ForkchoiceUpdatedV1]) together with the pieces of its environment
    the handlers touch: the 64-bit identifier counter, the big-endian
    identifier encoding, the bounded recency cache and the chain component.

    Go values are rendered as follows.
    - [uint64] is a [Z] kept in range by an explicit [mod 2^64];
    - [[8]byte] and other byte arrays are lists of byte values ([Z] in 0..255);
    - a result pair [(T, error)] is an [outcome]: [Ok], [Err] or [Panic]
      (a run-time panic, which the RPC server recovers from);
    - [interface{}] is the tagged union [iface] of the dynamic types that
      can be stored through it;
    - handlers run in the monad [M]: they read and update the backend
      record and emit the list of observable events (log lines and calls
      into the chain component). *)

From Stdlib Require Import String ZArith List Bool Lia Arith Sorted.
Import ListNotations.

Local Open Scope Z_scope.

Set Implicit Arguments.

(* ================================================================== *)
(** ** Wire data (package api) *)

(** [common.Hash] (32 bytes) and [common.Address] (20 bytes), each held as
    the unsigned value of its bytes; the engine only copies and compares them. *)
Definition Hash := Z.
Definition Address := Z.

(** [type PayloadID [8]byte]. *)
Definition PayloadID := list Z.

Definition PayloadID_eq_dec : forall a b : PayloadID, {a = b} + {a <> b} :=
  list_eq_dec Z.eq_dec.

(** [ExecutePayloadStatus]: the five status strings of the Engine API. *)
Inductive ExecutePayloadStatus :=
| ExecutionValid
| ExecutionInvalid
| ExecutionSyncing
| ExecutionInvalidBlockHash
| ExecutionInvalidTerminalBlock.

(** The wire payload.  The struct is declared in package api; the engine
    reads [ParentHash] and [BlockHash] and otherwise only stores and forwards
    the value. *)
Record ExecutionPayloadV1 := {
  ParentHash : Hash;
  FeeRecipient : Address;
  PrevRandao_p : Hash;
  Timestamp_p : Z;
  BlockHash : Hash;
  Transactions : list (list Z)
}.

Record PayloadAttributesV1 := {
  Timestamp : Z;
  PrevRandao : Hash;
  SuggestedFeeRecipient : Address
}.

Record ForkchoiceStateV1 := {
  HeadBlockHash : Hash;
  SafeBlockHash : Hash;
  FinalizedBlockHash : Hash
}.

(** [PayloadStatusV1]; the two pointer fields are [None] when nil. *)
Record PayloadStatusV1 := {
  Status : ExecutePayloadStatus;
  LatestValidHash : option Hash;
  ValidationError : option string
}.

Record ForkchoiceUpdatedResult := {
  fcStatus : PayloadStatusV1;
  fcPayloadID : option PayloadID
}.

(** [ErrorCode] of package api: the code the engine attaches to a cache miss. *)
Inductive ErrorCode := UnavailablePayload.

(* ================================================================== *)
(** ** [encoding/binary]: big-endian 64-bit values *)

Definition uint64_modulus : Z := 2 ^ 64.

Definition byte_of (v : Z) : Z := Z.land v 255.

(** [binary.BigEndian.PutUint64(b, v)]: [b[0] = byte(v >> 56)], ...,
    [b[7] = byte(v)]. *)
Definition PutUint64 (v : Z) : list Z :=
  [ byte_of (Z.shiftr v 56); byte_of (Z.shiftr v 48);
    byte_of (Z.shiftr v 40); byte_of (Z.shiftr v 32);
    byte_of (Z.shiftr v 24); byte_of (Z.shiftr v 16);
    byte_of (Z.shiftr v 8);  byte_of v ].

(** Reading a byte string as a big-endian unsigned integer
    ([binary.BigEndian.Uint64] on eight bytes). *)
Definition Uint64 (b : list Z) : Z :=
  fold_left (fun acc x => Z.lor (Z.shiftl acc 8) x) b 0.

(** The zero value of [PayloadID]. *)
Definition zeroPayloadID : PayloadID := [0; 0; 0; 0; 0; 0; 0; 0].

(** [atomic.AddUint64(&c, delta)]: the new value, wrapped to 64 bits. *)
Definition AddUint64 (c delta : Z) : Z := (c + delta) mod uint64_modulus.

(* ================================================================== *)
(** ** The recency cache *)

Module LRU.
Section Cache.
Variables K V : Type.
Variable K_eq_dec : forall a b : K, {a = b} + {a <> b}.

(** Modelled from the spec: the cache type [lru.Cache] comes from the
    package github.com/hashicorp/golang-lru, which is not part of the
    sources at hand.  Section 3 of the specification describes it as a
    capacity-bounded store with least-recently-used eviction; the entries
    are kept here most recently used first, next to the capacity. *)
Record Cache := {
  size : nat;
  evictList : list (K * V)
}.

Fixpoint lookup (k : K) (l : list (K * V)) : option V :=
  match l with
  | [] => None
  | (k', v) :: l' => if K_eq_dec k k' then Some v else lookup k l'
  end.

Fixpoint remove (k : K) (l : list (K * V)) : list (K * V) :=
  match l with
  | [] => []
  | (k', v) :: l' => if K_eq_dec k k' then remove k l' else (k', v) :: remove k l'
  end.

(** Modelled from the spec: [lru.New(size)] of the same package; a cache
    has a capacity, and [NewEngineBackend] passes on the error of a
    non-positive one. *)
Definition New (sz : Z) : option Cache :=
  if sz <=? 0 then None else Some {| size := Z.to_nat sz; evictList := [] |}.

(** Modelled from the spec: [c.Get(key)] of the same package.  Section
    4.2: [get] returns the payload or NotFound, and a successful get
    counts as a use for the recency order. *)
Definition Get (k : K) (c : Cache) : option V * Cache :=
  match lookup k (evictList c) with
  | Some v => (Some v, {| size := size c; evictList := (k, v) :: remove k (evictList c) |})
  | None => (None, c)
  end.

(** Modelled from the spec: [c.Add(key, value)] of the same package.
    Section 4.2: [put] inserts or replaces; if the cache is at capacity it
    evicts the least-recently-used entry before inserting. *)
Definition Add (k : K) (v : V) (c : Cache) : Cache :=
  match lookup k (evictList c) with
  | Some _ => {| size := size c; evictList := (k, v) :: remove k (evictList c) |}
  | None =>
      if (size c <=? length (evictList c))%nat
      then {| size := size c; evictList := (k, v) :: removelast (evictList c) |}
      else {| size := size c; evictList := (k, v) :: evictList c |}
  end.

(** Reading without touching the recency order (used in statements only). *)
Definition Peek (k : K) (c : Cache) : option V := lookup k (evictList c).

Definition Keys (c : Cache) : list K := map fst (evictList c).

Definition Len (c : Cache) : nat := length (evictList c).
End Cache.
End LRU.

(* ================================================================== *)
(** ** The chain component *)

(** [types.Header] of go-ethereum, as far as the engine looks at it: the
    comparison against the terminal total difficulty reads [Difficulty]. *)
Record Header := {
  Number : Z;
  Time : Z;
  Difficulty : Z
}.

(** A raw transaction; the engine never builds one. *)
Definition Transaction := list Z.

(** [TransactionsCreator]: the callback the chain component runs to obtain
    the transactions of a block under construction. *)
Record TransactionsCreator := {
  createTxs : Header -> list Transaction
}.

(** The collaborators of the backend that live outside the engine file:
    [MockChain] with its header store, genesis configuration and the two
    block operations, the conversion [BlockToPayload] and the block hash of
    a wire payload.  They are taken as an interface; every statement below
    holds for each implementation of it.  A [nil] terminal total difficulty
    is [None].  The operations that touch the chain return the new chain
    next to their result. *)
Class ChainComponent := {
  MockChain : Type;
  Block : Type;
  ChainError : Type;
  GetHeaderByHash : MockChain -> Hash -> option Header;
  TerminalTotalDifficulty : MockChain -> option Z;
  GasLimit : MockChain -> Z;
  ProcessPayload : MockChain -> ExecutionPayloadV1 -> (Block + ChainError) * MockChain;
  AddNewBlock : MockChain -> Hash -> Address -> Z -> Z -> TransactionsCreator ->
                Hash -> list Z -> list Header -> bool ->
                (Block + ChainError) * MockChain;
  BlockToPayload : Block -> ExecutionPayloadV1 + ChainError;
  computeBlockHash : ExecutionPayloadV1 -> Hash
}.

(** Modelled from the spec: [ValidateHash] is a method of the wire payload
    declared in package api, outside the sources at hand.  Section 4.3,
    step 1: the declared block hash must match a hash computed from the
    payload's own contents. *)
Definition ValidateHash `{ChainComponent} (payload : ExecutionPayloadV1) : bool :=
  computeBlockHash payload =? BlockHash payload.

(** [x.Cmp(y)] of [math/big]: -1, 0 or +1. *)
Definition Cmp (x y : Z) : Z :=
  match x ?= y with
  | Lt => -1
  | Eq => 0
  | Gt => 1
  end.

(* ================================================================== *)
(** ** Results, events and the handler monad *)

(** An [error] value returned by a handler: the engine's own [rpcError]
    (format string, its argument and the error code) or an error handed up
    unchanged from the chain component. *)
Inductive error `{ChainComponent} :=
| rpcError (err : string) (arg : PayloadID) (id : ErrorCode)
| chainError (e : ChainError).

Inductive outcome (E A : Type) :=
| Ok (a : A)
| Err (e : E)
| Panic.
Arguments Ok {E A} a.
Arguments Err {E A} e.
Arguments Panic {E A}.

Inductive Level := Info | Warn | Error.

(** What a handler does that can be seen from outside its return value and
    the backend record: log lines and calls into the chain component. *)
Inductive Event :=
| Log (lvl : Level) (msg : string)
| CallGetHeaderByHash (h : Hash)
| CallProcessPayload (payload : ExecutionPayloadV1)
| CallAddNewBlock (parent : Hash) (coinbase : Address) (timestamp gasLimit : Z)
                  (prevRandao : Hash).

(** The dynamic values an [interface{}] slot of the cache can hold: a
    [*ExecutionPayloadV1], or a value of any other dynamic type. *)
Inductive iface :=
| IfacePayloadV1 (p : ExecutionPayloadV1)
| IfaceOther (typeName : string).

Section Engine.
Context {cc : ChainComponent}.

(** [type EngineBackend struct]; the logger is represented by the [Log]
    events. *)
Record EngineBackend := {
  mockChain : MockChain;
  payloadIdCounter : Z;
  recentPayloads : LRU.Cache PayloadID iface
}.

Definition M (A : Type) : Type :=
  EngineBackend -> outcome error A * EngineBackend * list Event.

Definition ret {A} (a : A) : M A := fun e => (Ok a, e, []).
Definition throw {A} (err : error) : M A := fun e => (Err err, e, []).
Definition panic {A} : M A := fun e => (Panic, e, []).

Definition bind {A B} (m : M A) (f : A -> M B) : M B :=
  fun e =>
    match m e with
    | (Ok a, e1, ev1) =>
        match f a e1 with
        | (r, e2, ev2) => (r, e2, ev1 ++ ev2)
        end
    | (Err err, e1, ev1) => (Err err, e1, ev1)
    | (Panic, e1, ev1) => (Panic, e1, ev1)
    end.
End Engine.

Declare Scope engine_scope.
Delimit Scope engine_scope with engine.
Notation "x <- m ;; k" := (bind m (fun x => k))
  (at level 61, m at next level, right associativity) : engine_scope.
Notation "m ;; k" := (bind m (fun _ => k))
  (at level 61, right associativity) : engine_scope.

Section Handlers.
Context {cc : ChainComponent}.
Local Open Scope engine_scope.
Local Open Scope string_scope.

(** *** Primitive steps *)

Definition logf (lvl : Level) (msg : string) : M unit :=
  fun e => (Ok tt, e, [Log lvl msg]).

(** [e.mockChain.chain.GetHeaderByHash(h)]. *)
Definition getHeaderByHash (h : Hash) : M (option Header) :=
  fun e => (Ok (GetHeaderByHash (mockChain e) h), e, [CallGetHeaderByHash h]).

(** [d.Cmp(e.mockChain.gspec.Config.TerminalTotalDifficulty)]: comparing
    against a nil number dereferences it. *)
Definition cmpTerminalTotalDifficulty (d : Z) : M Z :=
  fun e =>
    match TerminalTotalDifficulty (mockChain e) with
    | Some ttd => (Ok (Cmp d ttd), e, [])
    | None => (Panic, e, [])
    end.

Definition gspecGasLimit : M Z :=
  fun e => (Ok (GasLimit (mockChain e)), e, []).

(** [e.mockChain.ProcessPayload(payload)]. *)
Definition processPayload (payload : ExecutionPayloadV1) : M (Block + ChainError) :=
  fun e =>
    let '(r, ch) := ProcessPayload (mockChain e) payload in
    (Ok r,
     {| mockChain := ch; payloadIdCounter := payloadIdCounter e;
        recentPayloads := recentPayloads e |},
     [CallProcessPayload payload]).

(** [e.mockChain.AddNewBlock(...)]. *)
Definition addNewBlock (parent : Hash) (coinbase : Address) (timestamp gasLimit : Z)
    (txsCreator : TransactionsCreator) (prevRandao : Hash) (extraData : list Z)
    (uncles : list Header) (storeBlock : bool) : M (Block + ChainError) :=
  fun e =>
    let '(r, ch) := AddNewBlock (mockChain e) parent coinbase timestamp gasLimit
                      txsCreator prevRandao extraData uncles storeBlock in
    (Ok r,
     {| mockChain := ch; payloadIdCounter := payloadIdCounter e;
        recentPayloads := recentPayloads e |},
     [CallAddNewBlock parent coinbase timestamp gasLimit prevRandao]).

(** [atomic.AddUint64(&e.payloadIdCounter, delta)]. *)
Definition atomicAddPayloadIdCounter (delta : Z) : M Z :=
  fun e =>
    let n := AddUint64 (payloadIdCounter e) delta in
    (Ok n,
     {| mockChain := mockChain e; payloadIdCounter := n;
        recentPayloads := recentPayloads e |},
     []).

(** [e.recentPayloads.Get(id)]. *)
Definition recentPayloadsGet (id : PayloadID) : M (option iface) :=
  fun e =>
    let '(r, c) := LRU.Get PayloadID_eq_dec id (recentPayloads e) in
    (Ok r,
     {| mockChain := mockChain e; payloadIdCounter := payloadIdCounter e;
        recentPayloads := c |},
     []).

(** [e.recentPayloads.Add(id, payload)]. *)
Definition recentPayloadsAdd (id : PayloadID) (v : iface) : M unit :=
  fun e =>
    (Ok tt,
     {| mockChain := mockChain e; payloadIdCounter := payloadIdCounter e;
        recentPayloads := LRU.Add PayloadID_eq_dec id v (recentPayloads e) |},
     []).

(** The type assertion of [GetPayloadV1] to a pointer to
    [ExecutionPayloadV1]: panics on any other dynamic type. *)
Definition assertPayloadV1 (v : iface) : M ExecutionPayloadV1 :=
  match v with
  | IfacePayloadV1 p => ret p
  | IfaceOther _ => panic
  end.

Definition status (s : ExecutePayloadStatus) : PayloadStatusV1 :=
  {| Status := s; LatestValidHash := None; ValidationError := None |}.

(** *** The backend *)

(** [NewEngineBackend(log, mock)]. *)
Definition NewEngineBackend (mock : MockChain) : outcome string EngineBackend :=
  match LRU.New PayloadID iface 10 with
  | None => Err "Must provide a positive size"
  | Some cache =>
      Ok {| mockChain := mock; payloadIdCounter := 0; recentPayloads := cache |}
  end.

(** [func (e *EngineBackend) GetPayloadV1(ctx, id)]. *)
Definition GetPayloadV1 (id : PayloadID) : M ExecutionPayloadV1 :=
  r <- recentPayloadsGet id ;;
  match r with
  | None =>
      logf Warn "Cannot get unknown payload" ;;
      throw (rpcError "unknown payload %d" id UnavailablePayload)
  | Some payload =>
      logf Info "Consensus client retrieved prepared payload" ;;
      assertPayloadV1 payload
  end.

(** [func (e *EngineBackend) NewPayloadV1(ctx, payload)].  The payload is
    passed by pointer; a nil one ([None]) is dereferenced at the first line,
    a panic before anything else happens. *)
Definition NewPayloadV1 (payload : option ExecutionPayloadV1) : M PayloadStatusV1 :=
  match payload with
  | None => panic
  | Some payload =>
      if negb (ValidateHash payload) then
        ret (status ExecutionInvalidBlockHash)
      else
        parent <- getHeaderByHash (ParentHash payload) ;;
        match parent with
        | None =>
            logf Warn "Cannot execute payload, parent is unknown" ;;
            ret (status ExecutionSyncing)
        | Some parent =>
            c <- cmpTerminalTotalDifficulty (Difficulty parent) ;;
            if (c <? 0)%Z then
              logf Warn "Parent block not yet at TTD" ;;
              ret (status ExecutionInvalidTerminalBlock)
            else
              r <- processPayload payload ;;
              match r with
              | inr err =>
                  logf Error "Failed to execute payload" ;;
                  throw (chainError err)
              | inl _ =>
                  logf Info "Executed payload" ;;
                  ret (status ExecutionValid)
              end
        end
  end.

(** [func (e *EngineBackend) ForkchoiceUpdatedV1(ctx, heads, attributes)].
    Both arguments are pointers.  A nil [heads] ([None]) is dereferenced
    while the fields of the opening log line are collected, a panic before
    anything else happens; a nil [attributes] is the request without
    attributes. *)
Definition ForkchoiceUpdatedV1 (heads : option ForkchoiceStateV1)
    (attributes : option PayloadAttributesV1) : M ForkchoiceUpdatedResult :=
  match heads with
  | None => panic
  | Some heads =>
      logf Info "Forkchoice updated" ;;
      match attributes with
      | None =>
          ret {| fcStatus := {| Status := ExecutionValid;
                                LatestValidHash := Some (HeadBlockHash heads);
                                ValidationError := None |};
                 fcPayloadID := None |}
      | Some attributes =>
          idU64 <- atomicAddPayloadIdCounter 1 ;;
          let id : PayloadID := PutUint64 idU64 in
          logf Info "Preparing new payload" ;;
          gasLimit <- gspecGasLimit ;;
          let txsCreator := {| createTxs := fun _ => [] |} in
          let extraData : list Z := [] in
          r <- addNewBlock (HeadBlockHash heads) (SuggestedFeeRecipient attributes)
                 (Timestamp attributes) gasLimit txsCreator (PrevRandao attributes)
                 extraData [] false ;;
          match r with
          | inr err =>
              logf Error "Failed to create block, cannot build new payload" ;;
              throw (chainError err)
          | inl bl =>
              match BlockToPayload bl with
              | inr err =>
                  logf Error "Failed to convert block to payload" ;;
                  throw (chainError err)
              | inl payload =>
                  recentPayloadsAdd id (IfacePayloadV1 payload) ;;
                  ret {| fcStatus := {| Status := ExecutionValid;
                                        LatestValidHash := Some (HeadBlockHash heads);
                                        ValidationError := None |};
                         fcPayloadID := Some id |}
              end
          end
      end
  end.

(** *** The RPC surface

    [startRPC] registers the backend under the namespace "engine": its
    three exported methods are the requests a client can make. *)
Inductive Request :=
| engine_getPayloadV1 (id : PayloadID)
| engine_newPayloadV1 (payload : option ExecutionPayloadV1)
| engine_forkchoiceUpdatedV1 (heads : option ForkchoiceStateV1)
                             (attributes : option PayloadAttributesV1).

Inductive Response :=
| getPayloadResponse (r : outcome error ExecutionPayloadV1)
| newPayloadResponse (r : outcome error PayloadStatusV1)
| forkchoiceUpdatedResponse (r : outcome error ForkchoiceUpdatedResult).

Definition serve (rq : Request) (e : EngineBackend)
  : Response * EngineBackend * list Event :=
  match rq with
  | engine_getPayloadV1 id =>
      let '(r, e', ev) := GetPayloadV1 id e in (getPayloadResponse r, e', ev)
  | engine_newPayloadV1 payload =>
      let '(r, e', ev) := NewPayloadV1 payload e in (newPayloadResponse r, e', ev)
  | engine_forkchoiceUpdatedV1 heads attributes =>
      let '(r, e', ev) := ForkchoiceUpdatedV1 heads attributes e in
      (forkchoiceUpdatedResponse r, e', ev)
  end.

(** Serving a sequence of requests one after the other. *)
Fixpoint serveAll (rqs : list Request) (e : EngineBackend)
  : list Response * EngineBackend :=
  match rqs with
  | [] => ([], e)
  | rq :: rest =>
      let '(rsp, e1, _) := serve rq e in
      let '(rsps, e2) := serveAll rest e1 in
      (rsp :: rsps, e2)
  end.

(** The identifier a response hands to the client, if any. *)
Definition issuedID (rsp : Response) : option PayloadID :=
  match rsp with
  | forkchoiceUpdatedResponse (Ok r) => fcPayloadID r
  | _ => None
  end.

Fixpoint issuedIDs (rsps : list Response) : list PayloadID :=
  match rsps with
  | [] => []
  | rsp :: rest =>
      match issuedID rsp with
      | Some id => id :: issuedIDs rest
      | None => issuedIDs rest
      end
  end.

(** The number of requests that ask for a payload to be prepared. *)
Fixpoint prepareCount (rqs : list Request) : Z :=
  match rqs with
  | [] => 0
  | engine_forkchoiceUpdatedV1 (Some _) (Some _) :: rest => 1 + prepareCount rest
  | _ :: rest => prepareCount rest
  end.
End Handlers.

(* ================================================================== *)
(** ** Histories of cache operations *)

Module CacheTrace.
Section Trace.
Variables K V : Type.
Variable K_eq_dec : forall a b : K, {a = b} + {a <> b}.

(** One use of the cache: an [Add] or a [Get]. *)
Inductive op :=
| OpAdd (k : K) (v : V)
| OpGet (k : K).

Definition opKey (o : op) : K :=
  match o with
  | OpAdd k _ => k
  | OpGet k => k
  end.

Definition runOp (c : LRU.Cache K V) (o : op) : LRU.Cache K V :=
  match o with
  | OpAdd k v => LRU.Add K_eq_dec k v c
  | OpGet k => snd (LRU.Get K_eq_dec k c)
  end.

Definition runOps (ops : list op) (c : LRU.Cache K V) : LRU.Cache K V :=
  fold_left runOp ops c.

(** The entries and keys handed to [Add], in order. *)
Fixpoint addedEntries (ops : list op) : list (K * V) :=
  match ops with
  | [] => []
  | OpAdd k v :: rest => (k, v) :: addedEntries rest
  | OpGet _ :: rest => addedEntries rest
  end.

Definition addedKeys (ops : list op) : list K := map fst (addedEntries ops).

(** The position (counted from 1) of the last operation on key [k] in the
    history, 0 if there is none: the time of the last access to [k]. *)
Fixpoint lastUse (k : K) (ops : list op) : nat :=
  match ops with
  | [] => 0%nat
  | o :: rest =>
      match lastUse k rest with
      | O => if K_eq_dec k (opKey o) then 1%nat else 0%nat
      | S m => S (S m)
      end
  end.
End Trace.
End CacheTrace.

(* ================================================================== *)
(** ** A small chain component to run the handlers on *)

Module Toy.
(** Headers by hash, the genesis settings, and the number of blocks
    assembled so far. *)
Record Chain := {
  headers : list (Hash * Header);
  ttd : option Z;
  gasLimit : Z;
  built : Z
}.

Fixpoint header (hs : list (Hash * Header)) (h : Hash) : option Header :=
  match hs with
  | [] => None
  | (h', hd) :: rest => if h =? h' then Some hd else header rest h
  end.

Definition hashOf (p : ExecutionPayloadV1) : Hash :=
  ParentHash p + Timestamp_p p + 1.

(** Blocks are kept in wire form.  Execution rejects a payload with
    timestamp 0; assembly needs a known parent. *)
Definition process (ch : Chain) (p : ExecutionPayloadV1)
  : (ExecutionPayloadV1 + string) * Chain :=
  if Timestamp_p p =? 0 then (inr "timestamp too old"%string, ch)
  else (inl p,
        {| headers := (BlockHash p, {| Number := 1; Time := Timestamp_p p; Difficulty := 0 |})
                      :: headers ch;
           ttd := ttd ch; gasLimit := gasLimit ch; built := built ch |}).

Definition addBlock (ch : Chain) (parent : Hash) (coinbase : Address)
    (timestamp gasLim : Z) (txs : TransactionsCreator) (prevRandao : Hash)
    (extraData : list Z) (uncles : list Header) (storeBlock : bool)
  : (ExecutionPayloadV1 + string) * Chain :=
  match header (headers ch) parent with
  | None => (inr "unknown parent"%string, ch)
  | Some hd =>
      let p := {| ParentHash := parent; FeeRecipient := coinbase;
                  PrevRandao_p := prevRandao; Timestamp_p := timestamp;
                  BlockHash := parent + timestamp + 1;
                  Transactions := createTxs txs hd |} in
      (inl p,
       {| headers := headers ch; ttd := ttd ch; gasLimit := gasLimit ch;
          built := built ch + 1 |})
  end.

Definition component : ChainComponent :=
  {| MockChain := Chain;
     Block := ExecutionPayloadV1;
     ChainError := string;
     GetHeaderByHash := fun ch => header (headers ch);
     TerminalTotalDifficulty := ttd;
     GasLimit := gasLimit;
     ProcessPayload := process;
     AddNewBlock := addBlock;
     BlockToPayload := fun b => inl b;
     computeBlockHash := hashOf |}.

(** Genesis (hash 7) has reached the terminal total difficulty 100; the
    block with hash 8 has not. *)
Definition chain0 : Chain :=
  {| headers := [ (7, {| Number := 0; Time := 0; Difficulty := 100 |});
                  (8, {| Number := 0; Time := 0; Difficulty := 99 |}) ];
     ttd := Some 100;
     gasLimit := 30000000;
     built := 0 |}.

Definition backend0 : @EngineBackend component :=
  @Build_EngineBackend component chain0 0
    {| LRU.size := 10; LRU.evictList := [] |}.

Definition heads (h : Hash) : ForkchoiceStateV1 :=
  {| HeadBlockHash := h; SafeBlockHash := h; FinalizedBlockHash := h |}.

Definition attrs (t : Z) : PayloadAttributesV1 :=
  {| Timestamp := t; PrevRandao := 0; SuggestedFeeRecipient := 0 |}.

Definition payload (parent t : Z) : ExecutionPayloadV1 :=
  {| ParentHash := parent; FeeRecipient := 0; PrevRandao_p := 0;
     Timestamp_p := t; BlockHash := parent + t + 1; Transactions := [] |}.

(** The same payload with a block hash that does not fit its contents. *)
Definition tampered (parent t : Z) : ExecutionPayloadV1 :=
  {| ParentHash := parent; FeeRecipient := 0; PrevRandao_p := 0;
     Timestamp_p := t; BlockHash := parent + t + 2; Transactions := [] |}.

Definition prepare (h t : Z) : Request :=
  engine_forkchoiceUpdatedV1 (Some (heads h)) (Some (attrs t)).

(** Ten payloads stored under the identifiers 1 to 10, then a [Get] of
    the first: the oldest insertion is no longer the least recently used
    entry. *)
Definition id (n : Z) : PayloadID := PutUint64 n.

Definition stored (n : Z) : iface := IfacePayloadV1 (payload 7 n).

Definition cacheOps : list (CacheTrace.op PayloadID iface) :=
  map (fun n => CacheTrace.OpAdd (id n) (stored n)) [1; 2; 3; 4; 5; 6; 7; 8; 9; 10]
  ++ [CacheTrace.OpGet iface (id 1)].
End Toy.

(* ================================================================== *)
(** ** JSON form of the header response (package api, gen_ghrm.go) *)

Module GetHeaderResponse.
Section Marshalling.
(** The header type and the errors of [encoding/json] are left open. *)
Variable ExecutionPayloadHeaderV1 : Type.
Variable JSONError : Type.

(** [GetHeaderResponseMessage] as the generated code reads and writes it:
    [Header] is held by value, [Value] is a [*big.Int], [None] when nil. *)
Record GetHeaderResponseMessage := {
  Header : ExecutionPayloadHeaderV1;
  Value : option Z
}.

(** The local struct [enc] of [MarshalJSON]. *)
Record encoded := {
  encHeader : ExecutionPayloadHeaderV1;
  encValue : option Z
}.

(** The local struct [dec] of [UnmarshalJSON]: both fields are pointers,
    nil when the input does not set them. *)
Record decoded := {
  decHeader : option ExecutionPayloadHeaderV1;
  decValue : option Z
}.

(** [json.Marshal(&enc)] and [json.Unmarshal(input, &dec)] on a zero [dec]. *)
Variable jsonMarshal : encoded -> list Z + JSONError.
Variable jsonUnmarshal : list Z -> decoded + JSONError.

(** [func (g GetHeaderResponseMessage) MarshalJSON() ([]byte, error)]. *)
Definition MarshalJSON (g : GetHeaderResponseMessage) : list Z + JSONError :=
  let enc := {| encHeader := Header g; encValue := Value g |} in
  jsonMarshal enc.

(** [func (g *GetHeaderResponseMessage) UnmarshalJSON(input []byte) error]:
    the error, [None] for nil, and the message the receiver points to
    afterwards. *)
Definition UnmarshalJSON (g : GetHeaderResponseMessage) (input : list Z)
  : option JSONError * GetHeaderResponseMessage :=
  match jsonUnmarshal input with
  | inr err => (Some err, g)
  | inl dec =>
      let g1 :=
        match decHeader dec with
        | Some h => {| Header := h; Value := Value g |}
        | None => g
        end in
      let g2 :=
        match decValue dec with
        | Some v => {| Header := Header g1; Value := Some v |}
        | None => g1
        end in
      (None, g2)
  end.
End Marshalling.
End GetHeaderResponse.

(* ================================================================== *)
(** ** Starting the engine *)

Module Startup.

(** An [error] met while starting: one handed up by the host (file
    system, database, logger, RPC registry), or one made on the spot with
    [fmt.Errorf]. *)
Inductive startupError (HostError : Type) :=
| hostError (err : HostError)
| Errorf (msg : string).
Arguments hostError {HostError} err.
Arguments Errorf {HostError} msg.

(** The three kinds of handler that [startRPC] mounts: the authenticated
    HTTP stack and the authenticated websocket stack over the RPC server,
    each with its allowed origins and the secret, and the handler that
    answers 400 "wrong port, use the websocket port". *)
Inductive Handler :=
| HTTPHandlerStack (cors : list string) (secret : list Z)
| WSHandlerStack (cors : list string) (secret : list Z)
| WrongPort.

(** [http.Server] as [startRPC] fills it in; the mux is the list of its
    patterns.  The connection-state hook and the error log only write log
    lines and are left out. *)
Record Server := {
  Addr : string;
  Mux : list (string * Handler);
  ReadTimeout : Z;
  ReadHeaderTimeout : Z;
  WriteTimeout : Z;
  IdleTimeout : Z
}.

Section Run.
Context {cc : ChainComponent}.
Local Open Scope string_scope.

(** The host: the logger factory [LogCmd.Create], [ioutil.ReadFile],
    [common.Hex2Bytes], [NewDB], [NewMockChain] and [node.RegisterApis]. *)
Variables Logger LogCmd TraceLogConfig Database HostError : Type.
Variable Create : LogCmd -> Logger + HostError.
Variable ReadFile : string -> list Z + HostError.
Variable Hex2Bytes : list Z -> list Z.
Variable NewDB : string -> Database + HostError.

(** [ExecutionConsensusMock]. *)
Record ExecutionConsensusMock := {
  pow : option unit;
  ecmLog : option Logger
}.

Variable NewMockChain :
  option Logger -> ExecutionConsensusMock -> string -> Database -> TraceLogConfig ->
  MockChain + HostError.
Variable RegisterApis : option EngineBackend -> option HostError.

(** [type EngineCmd struct]: the options, then the fields filled in while
    starting (the channel [close] is [true] once made; the context and the
    RPC server object carry nothing the statements below look at). *)
Record EngineCmd := {
  SlotsPerEpoch : Z;
  DataDir : string;
  GenesisPath : string;
  JwtSecretPath : string;
  ListenAddr : string;
  WebsocketAddr : string;
  Cors : list string;
  TimeoutRead : Z;
  TimeoutReadHeader : Z;
  TimeoutWrite : Z;
  TimeoutIdle : Z;
  logCmd : LogCmd;
  traceLogConfig : TraceLogConfig;
  close : bool;
  log : option Logger;
  backend : option EngineBackend;
  srv : option Server;
  wsSrv : option Server;
  jwtSecret : list Z
}.

Definition withLogger (c : EngineCmd) (logr : Logger) : EngineCmd :=
  {| SlotsPerEpoch := SlotsPerEpoch c; DataDir := DataDir c; GenesisPath := GenesisPath c;
     JwtSecretPath := JwtSecretPath c; ListenAddr := ListenAddr c;
     WebsocketAddr := WebsocketAddr c; Cors := Cors c; TimeoutRead := TimeoutRead c;
     TimeoutReadHeader := TimeoutReadHeader c; TimeoutWrite := TimeoutWrite c;
     TimeoutIdle := TimeoutIdle c; logCmd := logCmd c; traceLogConfig := traceLogConfig c;
     close := true; log := Some logr; backend := backend c; srv := srv c;
     wsSrv := wsSrv c; jwtSecret := jwtSecret c |}.

Definition withJwtSecret (c : EngineCmd) (jwt : list Z) : EngineCmd :=
  {| SlotsPerEpoch := SlotsPerEpoch c; DataDir := DataDir c; GenesisPath := GenesisPath c;
     JwtSecretPath := JwtSecretPath c; ListenAddr := ListenAddr c;
     WebsocketAddr := WebsocketAddr c; Cors := Cors c; TimeoutRead := TimeoutRead c;
     TimeoutReadHeader := TimeoutReadHeader c; TimeoutWrite := TimeoutWrite c;
     TimeoutIdle := TimeoutIdle c; logCmd := logCmd c; traceLogConfig := traceLogConfig c;
     close := close c; log := log c; backend := backend c; srv := srv c;
     wsSrv := wsSrv c; jwtSecret := jwt |}.

Definition withBackend (c : EngineCmd) (b : EngineBackend) : EngineCmd :=
  {| SlotsPerEpoch := SlotsPerEpoch c; DataDir := DataDir c; GenesisPath := GenesisPath c;
     JwtSecretPath := JwtSecretPath c; ListenAddr := ListenAddr c;
     WebsocketAddr := WebsocketAddr c; Cors := Cors c; TimeoutRead := TimeoutRead c;
     TimeoutReadHeader := TimeoutReadHeader c; TimeoutWrite := TimeoutWrite c;
     TimeoutIdle := TimeoutIdle c; logCmd := logCmd c; traceLogConfig := traceLogConfig c;
     close := close c; log := log c; backend := Some b; srv := srv c;
     wsSrv := wsSrv c; jwtSecret := jwtSecret c |}.

Definition withServers (c : EngineCmd) (s ws : Server) : EngineCmd :=
  {| SlotsPerEpoch := SlotsPerEpoch c; DataDir := DataDir c; GenesisPath := GenesisPath c;
     JwtSecretPath := JwtSecretPath c; ListenAddr := ListenAddr c;
     WebsocketAddr := WebsocketAddr c; Cors := Cors c; TimeoutRead := TimeoutRead c;
     TimeoutReadHeader := TimeoutReadHeader c; TimeoutWrite := TimeoutWrite c;
     TimeoutIdle := TimeoutIdle c; logCmd := logCmd c; traceLogConfig := traceLogConfig c;
     close := close c; log := log c; backend := backend c; srv := Some s;
     wsSrv := Some ws; jwtSecret := jwtSecret c |}.

(** [func (c *EngineCmd) initLogger(ctx)]. *)
Definition initLogger (c : EngineCmd) : EngineCmd + HostError :=
  match Create (logCmd c) with
  | inr err => inr err
  | inl logr => inl (withLogger c logr)
  end.

(** [func loadJwtSecret(path string) ([]byte, error)]. *)
Definition loadJwtSecret (path : string) : list Z + startupError HostError :=
  match ReadFile path with
  | inr err => inr (hostError err)
  | inl raw =>
      let jwt := Hex2Bytes raw in
      if negb (length jwt =? 32)%nat
      then inr (Errorf "invalid length, expected 32-byte value")
      else inl jwt
  end.

(** [func (c *EngineCmd) makeMockChain()], returning the chain or an error. *)
Definition makeMockChain (c : EngineCmd) : MockChain + startupError HostError :=
  let posEngine := {| pow := None; ecmLog := log c |} in
  match NewDB (DataDir c) with
  | inr _ => inr (Errorf "unable to open db")
  | inl db =>
      match NewMockChain (log c) posEngine (GenesisPath c) db (traceLogConfig c) with
      | inr err => inr (hostError err)
      | inl chain => inl chain
      end
  end.

(** How [Run] can end: by returning (an error or nil), by a fatal log line,
    after which the process exits, or by a panic. *)
Inductive RunResult :=
| Returned (err : option HostError) (c : EngineCmd)
| Fatal (msg : string) (err : startupError HostError)
| Panicked.

(** [func (c *EngineCmd) startRPC(ctx)]: the command with both servers set
    up, unless the registration of the API fails, which is fatal. *)
Definition startRPC (c : EngineCmd) : EngineCmd + RunResult :=
  match RegisterApis (backend c) with
  | Some err => inr (Fatal "could not register api" (hostError err))
  | None =>
      let httpRpcHandler := HTTPHandlerStack (Cors c) (jwtSecret c) in
      let s := {| Addr := ListenAddr c;
                  Mux := [("/", httpRpcHandler); ("/ws", WrongPort)];
                  ReadTimeout := TimeoutRead c;
                  ReadHeaderTimeout := TimeoutReadHeader c;
                  WriteTimeout := TimeoutWrite c;
                  IdleTimeout := TimeoutIdle c |} in
      let wsHandler := WSHandlerStack (Cors c) (jwtSecret c) in
      let ws := {| Addr := WebsocketAddr c;
                   Mux := [("/", wsHandler); ("/ws", wsHandler)];
                   ReadTimeout := TimeoutRead c;
                   ReadHeaderTimeout := TimeoutReadHeader c;
                   WriteTimeout := TimeoutWrite c;
                   IdleTimeout := TimeoutIdle c |} in
      inl (withServers c s ws)
  end.

(** [func (c *EngineCmd) Run(ctx, args...) error], up to the launch of
    [RunNode]. *)
Definition Run (c : EngineCmd) : RunResult :=
  match initLogger c with
  | inr err => Returned (Some err) c
  | inl c =>
      match loadJwtSecret (JwtSecretPath c) with
      | inr err => Fatal "Unable to read JWT secret" err
      | inl jwt =>
          let c := withJwtSecret c jwt in
          match makeMockChain c with
          | inr err => Fatal "Unable to initialize mock chain" err
          | inl chain =>
              match NewEngineBackend chain with
              | Err msg => Fatal "Unable to initialize backend" (Errorf msg)
              | Panic => Panicked
              | Ok b =>
                  let c := withBackend c b in
                  match startRPC c with
                  | inr stop => stop
                  | inl c => Returned None c
                  end
              end
          end
      end
  end.
End Run.
End Startup.

(* ================================================================== *)
(** ** More toy instances *)

Module ToyMore.
Import GetHeaderResponse Startup.
Local Open Scope string_scope.

(** The toy chain without a terminal total difficulty in its genesis. *)
Definition chainNoTTD : Toy.Chain :=
  {| Toy.headers := Toy.headers Toy.chain0; Toy.ttd := None;
     Toy.gasLimit := Toy.gasLimit Toy.chain0; Toy.built := 0 |}.

Definition backendNoTTD : @EngineBackend Toy.component :=
  @Build_EngineBackend Toy.component chainNoTTD 0
    {| LRU.size := 10; LRU.evictList := [] |}.

(** A codec for the header response with numbers as headers: the header,
    then a presence flag and the value.  Decoding sets the fields the
    input has; anything too short is an error. *)
Definition jsonMarshal (enc : encoded Z) : list Z + string :=
  match encValue enc with
  | Some v => inl [encHeader enc; 1; v]
  | None => inl [encHeader enc; 0]
  end.

Definition jsonUnmarshal (input : list Z) : decoded Z + string :=
  match input with
  | [h; 1; v] => inl {| decHeader := Some h; decValue := Some v |}
  | [h; 0] => inl {| decHeader := Some h; decValue := None |}
  | [0] => inl {| decHeader := None; decValue := None |}
  | _ => inr "unexpected end of JSON input"%string
  end.

(** A host with one secret file of 32 decoded bytes and one that is too
    short; loggers, databases and chains always come up. *)
Definition readFile (path : string) : list Z + string :=
  if String.eqb path "jwt.hex" then inl (repeat 171 32)
  else if String.eqb path "short.hex" then inl (repeat 171 31)
  else inr "no such file"%string.

Definition command (secretPath : string) : @EngineCmd Toy.component unit unit unit :=
  {| SlotsPerEpoch := 32; DataDir := ""; GenesisPath := "genesis.json";
     JwtSecretPath := secretPath; ListenAddr := "127.0.0.1:8551";
     WebsocketAddr := "127.0.0.1:8552"; Cors := ["*"%string];
     TimeoutRead := 30; TimeoutReadHeader := 10; TimeoutWrite := 30; TimeoutIdle := 300;
     logCmd := tt; traceLogConfig := tt;
     close := false; log := None; backend := None; srv := None; wsSrv := None;
     jwtSecret := [] |}.

Definition run (secretPath : string) : @RunResult Toy.component unit unit unit string :=
  @Run Toy.component unit unit unit unit string
    (fun _ => inl tt) readFile (fun raw => raw) (fun _ => inl tt)
    (fun _ _ _ _ _ => inl Toy.chain0) (fun _ => None)
    (command secretPath).
End ToyMore.

(* ================================================================== *)
(** ** Validation of a submitted payload *)

Section NewPayload.
Context {cc : ChainComponent}.
Local Open Scope string_scope.

Lemma Cmp_neg (x y : Z) : (Cmp x y <? 0)%Z = true <-> (x < y)%Z.
Proof.
  unfold Cmp. destruct (Z.compare_spec x y); simpl; split; intros; try lia; discriminate.
Qed.

Lemma Cmp_nonneg (x y : Z) : (Cmp x y <? 0)%Z = false <-> (y <= x)%Z.
Proof.
  unfold Cmp. destruct (Z.compare_spec x y); simpl; split; intros; try lia; discriminate.
Qed.

(** C5.  A payload whose declared block hash differs from the hash of its
    contents is answered with INVALID_BLOCK_HASH as a normal result; the
    backend record (chain, counter, cache) is returned unchanged and no
    event at all is produced: no header lookup, no execution, no log line.
    The hash check is thus the first step and the only one. *)
Theorem C5_tampered_hash_rejected_first :
  forall (e : EngineBackend) (payload : ExecutionPayloadV1),
    computeBlockHash payload <> BlockHash payload ->
    NewPayloadV1 (Some payload) e = (Ok (status ExecutionInvalidBlockHash), e, []).
Proof.
  intros e payload Hneq.
  unfold NewPayloadV1, ValidateHash.
  apply Z.eqb_neq in Hneq. rewrite Hneq. reflexivity.
Qed.

(** C9.  With a consistent block hash and a parent hash the chain
    component does not know, the answer is SYNCING as a normal result.
    The only events are the header lookup and one warning: the terminal
    total difficulty is not consulted (the result is the same whether or
    not it is configured) and the payload is not executed; the backend
    record is unchanged. *)
Theorem C9_unknown_parent_syncing :
  forall (e : EngineBackend) (payload : ExecutionPayloadV1),
    computeBlockHash payload = BlockHash payload ->
    GetHeaderByHash (mockChain e) (ParentHash payload) = None ->
    NewPayloadV1 (Some payload) e =
      (Ok (status ExecutionSyncing), e,
       [CallGetHeaderByHash (ParentHash payload);
        Log Warn "Cannot execute payload, parent is unknown"]).
Proof.
  intros e payload Hhash Hparent.
  unfold NewPayloadV1, ValidateHash.
  apply Z.eqb_eq in Hhash. rewrite Hhash. cbn [negb].
  unfold bind, getHeaderByHash. rewrite Hparent.
  reflexivity.
Qed.

(** C1.  With a consistent block hash, a parent found by the chain
    component and a configured terminal total difficulty, a parent whose
    difficulty is below the threshold makes the call return
    INVALID_TERMINAL_BLOCK as a normal result ([Ok], not [Err]); the
    payload is not executed and the backend record is unchanged. *)
Theorem C1_parent_below_ttd_invalid_terminal_block :
  forall (e : EngineBackend) (payload : ExecutionPayloadV1)
         (parent : Header) (threshold : Z),
    computeBlockHash payload = BlockHash payload ->
    GetHeaderByHash (mockChain e) (ParentHash payload) = Some parent ->
    TerminalTotalDifficulty (mockChain e) = Some threshold ->
    (Difficulty parent < threshold)%Z ->
    NewPayloadV1 (Some payload) e =
      (Ok (status ExecutionInvalidTerminalBlock), e,
       [CallGetHeaderByHash (ParentHash payload);
        Log Warn "Parent block not yet at TTD"]).
Proof.
  intros e payload parent threshold Hhash Hparent Httd Hlt.
  unfold NewPayloadV1, ValidateHash.
  apply Z.eqb_eq in Hhash. rewrite Hhash. cbn [negb].
  unfold bind, getHeaderByHash, cmpTerminalTotalDifficulty.
  rewrite Hparent, Httd.
  apply Cmp_neg in Hlt. rewrite Hlt.
  reflexivity.
Qed.
End NewPayload.

(** On the toy chain: the payload on genesis whose block hash is off by one. *)
Lemma C5_witness :
  @NewPayloadV1 Toy.component (Some (Toy.tampered 7 5)) Toy.backend0 =
    (Ok (status ExecutionInvalidBlockHash), Toy.backend0, []).
Proof.
  apply (@C5_tampered_hash_rejected_first Toy.component Toy.backend0 (Toy.tampered 7 5)).
  vm_compute. discriminate.
Defined.

(** On the toy chain: a payload whose parent hash 9 no header answers to. *)
Lemma C9_witness :
  @NewPayloadV1 Toy.component (Some (Toy.payload 9 5)) Toy.backend0 =
    (Ok (status ExecutionSyncing), Toy.backend0,
     [CallGetHeaderByHash 9; Log Warn "Cannot execute payload, parent is unknown"]).
Proof.
  apply (@C9_unknown_parent_syncing Toy.component Toy.backend0 (Toy.payload 9 5)).
  - reflexivity.
  - reflexivity.
Defined.

(** On the toy chain: the parent with hash 8 has difficulty 99, one below
    the terminal total difficulty 100. *)
Lemma C1_witness :
  @NewPayloadV1 Toy.component (Some (Toy.payload 8 5)) Toy.backend0 =
    (Ok (status ExecutionInvalidTerminalBlock), Toy.backend0,
     [CallGetHeaderByHash 8; Log Warn "Parent block not yet at TTD"]).
Proof.
  apply (@C1_parent_below_ttd_invalid_terminal_block Toy.component Toy.backend0
           (Toy.payload 8 5) {| Number := 0; Time := 0; Difficulty := 99 |} 100).
  - reflexivity.
  - reflexivity.
  - reflexivity.
  - simpl. lia.
Defined.

(* ================================================================== *)
(** ** Facts about the recency cache *)

Module LRUFacts.
Section Facts.
Variables K V : Type.
Variable K_eq_dec : forall a b : K, {a = b} + {a <> b}.

Local Abbreviation lookup := (LRU.lookup K_eq_dec).
Local Abbreviation remove := (LRU.remove K_eq_dec).
Local Abbreviation Get := (LRU.Get K_eq_dec).
Local Abbreviation Add := (LRU.Add K_eq_dec).
Local Abbreviation Peek := (LRU.Peek K_eq_dec).

Lemma lookup_In (k : K) (l : list (K * V)) (v : V) :
  lookup k l = Some v -> In (k, v) l.
Proof.
  induction l as [|[k' v'] l IH]; simpl; [discriminate|].
  destruct (K_eq_dec k k') as [->|Hne]; intros H.
  - injection H as ->. now left.
  - right. now apply IH.
Qed.

Lemma lookup_None (k : K) (l : list (K * V)) :
  lookup k l = None <-> ~ In k (map fst l).
Proof.
  induction l as [|[k' v'] l IH]; simpl.
  - tauto.
  - destruct (K_eq_dec k k') as [->|Hne].
    + split; [discriminate|]. intros H. exfalso. apply H. now left.
    + rewrite IH. split; intros H; [intros [E|E]; [congruence|tauto]|tauto].
Qed.

Lemma lookup_Some_key (k : K) (l : list (K * V)) (v : V) :
  lookup k l = Some v -> In k (map fst l).
Proof.
  intros H. apply lookup_In in H. now apply (in_map fst) in H.
Qed.

Lemma lookup_remove_same (k : K) (l : list (K * V)) :
  lookup k (remove k l) = None.
Proof.
  induction l as [|[k' v'] l IH]; simpl; [reflexivity|].
  destruct (K_eq_dec k k') as [->|Hne]; [exact IH|].
  simpl. destruct (K_eq_dec k k'); [contradiction|exact IH].
Qed.

Lemma lookup_remove_other (k k' : K) (l : list (K * V)) :
  k' <> k -> lookup k' (remove k l) = lookup k' l.
Proof.
  intros Hne. induction l as [|[k0 v0] l IH]; simpl; [reflexivity|].
  destruct (K_eq_dec k k0) as [->|Hk].
  - destruct (K_eq_dec k' k0); [contradiction|exact IH].
  - simpl. destruct (K_eq_dec k' k0); [reflexivity|exact IH].
Qed.

Lemma In_remove (x : K * V) (k : K) (l : list (K * V)) :
  In x (remove k l) -> In x l.
Proof.
  induction l as [|[k0 v0] l IH]; simpl; [tauto|].
  destruct (K_eq_dec k k0); simpl; intuition.
Qed.

Lemma remove_absent (k : K) (l : list (K * V)) :
  ~ In k (map fst l) -> remove k l = l.
Proof.
  induction l as [|[k0 v0] l IH]; simpl; [reflexivity|].
  intros H. destruct (K_eq_dec k k0) as [->|Hne]; [tauto|].
  f_equal. apply IH. tauto.
Qed.

Lemma length_remove_le (k : K) (l : list (K * V)) :
  (length (remove k l) <= length l)%nat.
Proof.
  induction l as [|[k0 v0] l IH]; simpl; [lia|].
  destruct (K_eq_dec k k0); simpl; lia.
Qed.

Lemma length_remove_lt (k : K) (l : list (K * V)) (v : V) :
  lookup k l = Some v -> (length (remove k l) < length l)%nat.
Proof.
  induction l as [|[k0 v0] l IH]; simpl; [discriminate|].
  destruct (K_eq_dec k k0); intros H.
  - pose proof (length_remove_le k l). lia.
  - simpl. apply IH in H. lia.
Qed.

Lemma In_removelast (A : Type) (x : A) (l : list A) :
  In x (removelast l) -> In x l.
Proof.
  induction l as [|a l IH]; simpl; [tauto|].
  destruct l as [|b l]; [simpl; tauto|].
  intros [H|H]; [now left|right; now apply IH].
Qed.

Lemma length_removelast (A : Type) (l : list A) :
  length (removelast l) = pred (length l).
Proof.
  induction l as [|a l IH]; [reflexivity|].
  destruct l as [|b l]; [reflexivity|].
  change (removelast (a :: b :: l)) with (a :: removelast (b :: l)).
  change (length (a :: removelast (b :: l))) with (S (length (removelast (b :: l)))).
  rewrite IH. reflexivity.
Qed.

(** [Get] and [Add] never change the capacity. *)
Lemma size_Get (k : K) (c : LRU.Cache K V) :
  LRU.size (snd (Get k c)) = LRU.size c.
Proof. unfold LRU.Get. destruct (lookup k (LRU.evictList c)); reflexivity. Qed.

Lemma size_Add (k : K) (v : V) (c : LRU.Cache K V) :
  LRU.size (Add k v c) = LRU.size c.
Proof.
  unfold LRU.Add. destruct (lookup k (LRU.evictList c)); [reflexivity|].
  destruct (LRU.size c <=? length (LRU.evictList c))%nat; reflexivity.
Qed.

(** [Get] returns what is stored and keeps every stored entry. *)
Lemma fst_Get (k : K) (c : LRU.Cache K V) : fst (Get k c) = Peek k c.
Proof. unfold LRU.Get, LRU.Peek. destruct (lookup k (LRU.evictList c)); reflexivity. Qed.

Lemma Get_miss (k : K) (c : LRU.Cache K V) :
  Peek k c = None -> Get k c = (None, c).
Proof. unfold LRU.Get, LRU.Peek. intros ->. reflexivity. Qed.

Lemma Peek_Get (k k' : K) (c : LRU.Cache K V) :
  Peek k' (snd (Get k c)) = Peek k' c.
Proof.
  unfold LRU.Get, LRU.Peek.
  destruct (lookup k (LRU.evictList c)) as [v|] eqn:E; [|reflexivity].
  simpl. destruct (K_eq_dec k' k) as [->|Hne]; [now rewrite E|].
  now apply lookup_remove_other.
Qed.

Lemma Peek_Add_same (k : K) (v : V) (c : LRU.Cache K V) :
  Peek k (Add k v c) = Some v.
Proof.
  unfold LRU.Add, LRU.Peek.
  destruct (lookup k (LRU.evictList c)).
  - simpl. destruct (K_eq_dec k k); [reflexivity|contradiction].
  - destruct (LRU.size c <=? length (LRU.evictList c))%nat; simpl;
      (destruct (K_eq_dec k k); [reflexivity|contradiction]).
Qed.

(** The number of entries stays within a positive capacity. *)
Lemma Len_Get (k : K) (c : LRU.Cache K V) :
  (LRU.Len (snd (Get k c)) <= LRU.Len c)%nat.
Proof.
  unfold LRU.Get, LRU.Len.
  destruct (lookup k (LRU.evictList c)) as [v|] eqn:E; simpl; [|lia].
  apply length_remove_lt in E. lia.
Qed.

Lemma Len_Add (k : K) (v : V) (c : LRU.Cache K V) :
  (0 < LRU.size c)%nat -> (LRU.Len c <= LRU.size c)%nat ->
  (LRU.Len (Add k v c) <= LRU.size c)%nat.
Proof.
  unfold LRU.Add, LRU.Len. intros Hpos Hle.
  destruct (lookup k (LRU.evictList c)) as [v0|] eqn:E; simpl.
  - apply length_remove_lt in E. lia.
  - destruct (LRU.size c <=? length (LRU.evictList c))%nat eqn:F; simpl.
    + rewrite length_removelast. lia.
    + apply Nat.leb_gt in F. lia.
Qed.

(** Every entry present after [Add] or [Get] was present before, except
    the entry just added. *)
Lemma In_Get (x : K * V) (k : K) (c : LRU.Cache K V) :
  In x (LRU.evictList (snd (Get k c))) -> In x (LRU.evictList c).
Proof.
  unfold LRU.Get.
  destruct (lookup k (LRU.evictList c)) as [v|] eqn:E; simpl; [|tauto].
  intros [<-|H]; [now apply lookup_In|now apply In_remove in H].
Qed.

Lemma In_Add (x : K * V) (k : K) (v : V) (c : LRU.Cache K V) :
  In x (LRU.evictList (Add k v c)) -> x = (k, v) \/ In x (LRU.evictList c).
Proof.
  unfold LRU.Add.
  destruct (lookup k (LRU.evictList c)) as [v0|] eqn:E; simpl.
  - intros [<-|H]; [now left|right; now apply In_remove in H].
  - destruct (LRU.size c <=? length (LRU.evictList c))%nat; simpl.
    + intros [<-|H]; [now left|right; now apply In_removelast].
    + intros [<-|H]; [now left|now right].
Qed.
End Facts.
End LRUFacts.

(* ================================================================== *)
(** ** Forkchoice updates *)

Section ForkchoiceUpdated.
Context {cc : ChainComponent}.
Local Open Scope string_scope.

(** The block assembly a prepare request asks of the chain component. *)
Local Abbreviation assemble e heads a :=
  (AddNewBlock (mockChain e) (HeadBlockHash heads) (SuggestedFeeRecipient a)
     (Timestamp a) (GasLimit (mockChain e)) {| createTxs := fun _ => [] |}
     (PrevRandao a) [] [] false).

Local Abbreviation validResult heads pid :=
  {| fcStatus := {| Status := ExecutionValid;
                    LatestValidHash := Some (HeadBlockHash heads);
                    ValidationError := None |};
     fcPayloadID := pid |}.

(** The three ways a prepare request can end, spelled out. *)
Lemma ForkchoiceUpdatedV1_prepare (e : EngineBackend) (heads : ForkchoiceStateV1)
    (a : PayloadAttributesV1) :
  ForkchoiceUpdatedV1 (Some heads) (Some a) e =
    let n := AddUint64 (payloadIdCounter e) 1 in
    let start := [Log Info "Forkchoice updated"; Log Info "Preparing new payload";
                  CallAddNewBlock (HeadBlockHash heads) (SuggestedFeeRecipient a)
                    (Timestamp a) (GasLimit (mockChain e)) (PrevRandao a)] in
    match assemble e heads a with
    | (inr err, ch) =>
        (Err (chainError err),
         {| mockChain := ch; payloadIdCounter := n; recentPayloads := recentPayloads e |},
         (start ++ [Log Error "Failed to create block, cannot build new payload"])%list)
    | (inl bl, ch) =>
        match BlockToPayload bl with
        | inr err =>
            (Err (chainError err),
             {| mockChain := ch; payloadIdCounter := n;
                recentPayloads := recentPayloads e |},
             (start ++ [Log Error "Failed to convert block to payload"])%list)
        | inl payload =>
            (Ok (validResult heads (Some (PutUint64 n))),
             {| mockChain := ch; payloadIdCounter := n;
                recentPayloads :=
                  LRU.Add PayloadID_eq_dec (PutUint64 n) (IfacePayloadV1 payload)
                    (recentPayloads e) |},
             start)
        end
    end.
Proof.
  unfold ForkchoiceUpdatedV1, bind, logf, atomicAddPayloadIdCounter, gspecGasLimit,
    addNewBlock, recentPayloadsAdd, throw, ret.
  cbn [mockChain payloadIdCounter recentPayloads app].
  destruct (assemble e heads a) as [[bl|err] ch]; [|reflexivity].
  destruct (BlockToPayload bl) as [payload|err]; reflexivity.
Qed.

Lemma ForkchoiceUpdatedV1_nil_heads (e : EngineBackend)
    (attributes : option PayloadAttributesV1) :
  ForkchoiceUpdatedV1 None attributes e = (Panic, e, []).
Proof. reflexivity. Qed.

Lemma ForkchoiceUpdatedV1_no_attributes (e : EngineBackend) (heads : ForkchoiceStateV1) :
  ForkchoiceUpdatedV1 (Some heads) None e =
    (Ok (validResult heads None), e, [Log Info "Forkchoice updated"]).
Proof. reflexivity. Qed.

(** C7.  Without attributes the call answers VALID with the head block
    hash of the given forkchoice state as latest valid hash and without a
    PayloadID; the backend record comes back as it was (same counter,
    same cache, same chain) and only the opening log line is emitted. *)
Theorem C7_update_without_attributes :
  forall (e : EngineBackend) (heads : ForkchoiceStateV1),
    ForkchoiceUpdatedV1 (Some heads) None e =
      (Ok {| fcStatus := {| Status := ExecutionValid;
                            LatestValidHash := Some (HeadBlockHash heads);
                            ValidationError := None |};
             fcPayloadID := None |},
       e,
       [Log Info "Forkchoice updated"]).
Proof. intros e heads. apply ForkchoiceUpdatedV1_no_attributes. Qed.

(** C6.  Whenever the call returns a result, its status is VALID; and it
    returns a result carrying a PayloadID exactly when attributes were
    supplied and construction succeeded, that is, the chain component
    assembled a block and the block converted to a wire payload. *)
Theorem C6_payload_id_iff_prepared :
  forall (e : EngineBackend) (heads : ForkchoiceStateV1)
         (attributes : option PayloadAttributesV1),
    (forall r, fst (fst (ForkchoiceUpdatedV1 (Some heads) attributes e)) = Ok r ->
               Status (fcStatus r) = ExecutionValid)
    /\
    ((exists r id, fst (fst (ForkchoiceUpdatedV1 (Some heads) attributes e)) = Ok r
                   /\ fcPayloadID r = Some id)
     <->
     (exists a bl payload,
         attributes = Some a
         /\ fst (assemble e heads a) = inl bl
         /\ BlockToPayload bl = inl payload)).
Proof.
  intros e heads [a|].
  - rewrite ForkchoiceUpdatedV1_prepare. cbv zeta.
    destruct (assemble e heads a) as [[bl|err] ch] eqn:Ha.
    + destruct (BlockToPayload bl) as [payload|err] eqn:Hb; cbn [fst].
      * split.
        -- intros r [= <-]. reflexivity.
        -- split; intros _.
           ++ exists a, bl, payload. rewrite Ha. auto.
           ++ eexists. eexists. split; reflexivity.
      * split.
        -- intros r [=].
        -- split.
           ++ intros (r & id & [=] & _).
           ++ intros (a' & bl' & p' & [= <-] & Hbl & Hp).
              rewrite Ha in Hbl. cbn [fst] in Hbl. injection Hbl as <-.
              congruence.
    + cbn [fst]. split.
      * intros r [=].
      * split.
        -- intros (r & id & [=] & _).
        -- intros (a' & bl' & p' & [= <-] & Hbl & Hp).
           rewrite Ha in Hbl. discriminate.
  - rewrite ForkchoiceUpdatedV1_no_attributes. cbn [fst]. split.
    + intros r [= <-]. reflexivity.
    + split.
      * intros (r & id & [= <-] & Hid). discriminate.
      * intros (a & bl & p & [=] & _).
Qed.
End ForkchoiceUpdated.

(* ================================================================== *)
(** ** What each request does to the backend record *)

Section Frame.
Context {cc : ChainComponent}.
Local Open Scope string_scope.

Local Abbreviation Peek := (LRU.Peek PayloadID_eq_dec).
Local Abbreviation Get := (LRU.Get PayloadID_eq_dec).

Lemma GetPayloadV1_miss (e : EngineBackend) (id : PayloadID) :
  Peek id (recentPayloads e) = None ->
  GetPayloadV1 id e =
    (Err (rpcError "unknown payload %d" id UnavailablePayload), e,
     [Log Warn "Cannot get unknown payload"]).
Proof.
  intros Hmiss. unfold GetPayloadV1, bind, recentPayloadsGet.
  rewrite (LRUFacts.Get_miss _ _ _ Hmiss).
  destruct e; reflexivity.
Qed.

Lemma GetPayloadV1_hit (e : EngineBackend) (id : PayloadID) (v : iface) :
  Peek id (recentPayloads e) = Some v ->
  GetPayloadV1 id e =
    (match v with
     | IfacePayloadV1 p => Ok p
     | IfaceOther _ => Panic
     end,
     {| mockChain := mockChain e; payloadIdCounter := payloadIdCounter e;
        recentPayloads := snd (Get id (recentPayloads e)) |},
     [Log Info "Consensus client retrieved prepared payload"]).
Proof.
  intros Hhit. unfold GetPayloadV1, bind, recentPayloadsGet.
  pose proof (LRUFacts.fst_Get PayloadID_eq_dec id (recentPayloads e)) as Hf.
  destruct (Get id (recentPayloads e)) as [r c]. cbn [fst snd] in *.
  rewrite Hf, Hhit. destruct v; reflexivity.
Qed.

Lemma GetPayloadV1_backend (e : EngineBackend) (id : PayloadID) :
  snd (fst (GetPayloadV1 id e)) =
    {| mockChain := mockChain e; payloadIdCounter := payloadIdCounter e;
       recentPayloads := snd (Get id (recentPayloads e)) |}.
Proof.
  destruct (Peek id (recentPayloads e)) as [v|] eqn:E.
  - rewrite (GetPayloadV1_hit _ _ E). reflexivity.
  - rewrite (GetPayloadV1_miss _ _ E).
    rewrite (LRUFacts.Get_miss _ _ _ E). destruct e; reflexivity.
Qed.

Lemma NewPayloadV1_backend (e : EngineBackend) (payload : option ExecutionPayloadV1) :
  payloadIdCounter (snd (fst (NewPayloadV1 payload e))) = payloadIdCounter e
  /\ recentPayloads (snd (fst (NewPayloadV1 payload e))) = recentPayloads e.
Proof.
  unfold NewPayloadV1.
  destruct payload as [payload|]; [|split; reflexivity].
  destruct (negb (ValidateHash payload)); [split; reflexivity|].
  unfold bind, getHeaderByHash.
  destruct (GetHeaderByHash (mockChain e) (ParentHash payload)) as [parent|];
    [|split; reflexivity].
  unfold cmpTerminalTotalDifficulty.
  destruct (TerminalTotalDifficulty (mockChain e)) as [threshold|];
    [|split; reflexivity].
  destruct (Cmp (Difficulty parent) threshold <? 0)%Z; [split; reflexivity|].
  unfold processPayload.
  destruct (ProcessPayload (mockChain e) payload) as [[bl|err] ch]; split; reflexivity.
Qed.

(** C3 (amended).  A request whose response hands out no PayloadID leaves
    every entry of the cache as it was: identifiers are returned and
    entries created only by a successful prepare request.  In particular
    a prepare request that fails returns no PayloadID and leaves the cache
    exactly as before the call; the identifier counter has nevertheless
    moved on by one, the identifier drawn for the failed request being
    spent.  Requests of the other kinds leave the counter alone. *)
Theorem C3_only_successful_prepare_caches :
  forall (rq : Request) (e e' : EngineBackend) (rsp : Response) (ev : list Event),
    serve rq e = (rsp, e', ev) ->
    issuedID rsp = None ->
    (forall id, Peek id (recentPayloads e') = Peek id (recentPayloads e))
    /\ (forall heads a,
           rq = engine_forkchoiceUpdatedV1 (Some heads) (Some a) ->
           (exists err, rsp = forkchoiceUpdatedResponse (Err err))
           /\ recentPayloads e' = recentPayloads e
           /\ payloadIdCounter e' = AddUint64 (payloadIdCounter e) 1)
    /\ ((forall heads a, rq <> engine_forkchoiceUpdatedV1 (Some heads) (Some a)) ->
        payloadIdCounter e' = payloadIdCounter e).
Proof.
  intros rq e e' rsp ev Hserve Hnone.
  destruct rq as [id|payload|[heads|] [a|]]; cbn [serve] in Hserve.
  - pose proof (GetPayloadV1_backend e id) as Hb.
    destruct (GetPayloadV1 id e) as [[r e1] ev1]. cbn [fst snd] in Hb.
    injection Hserve as <- <- <-. subst e1. cbn [recentPayloads payloadIdCounter].
    split; [intros k; apply LRUFacts.Peek_Get|].
    split; [intros heads a [=]|reflexivity].
  - pose proof (NewPayloadV1_backend e payload) as [Hc Hr].
    destruct (NewPayloadV1 payload e) as [[r e1] ev1]. cbn [fst snd] in Hc, Hr.
    injection Hserve as <- <- <-.
    split; [intros k; now rewrite Hr|].
    split; [intros heads a [=]|intros _; exact Hc].
  - rewrite ForkchoiceUpdatedV1_prepare in Hserve. cbv zeta in Hserve.
    destruct AddNewBlock as [[bl|err] ch].
    + destruct (BlockToPayload bl) as [payload|err].
      * injection Hserve as <- <- <-. discriminate Hnone.
      * injection Hserve as <- <- <-. cbn [recentPayloads payloadIdCounter].
        split; [reflexivity|].
        split; [intros heads' a' [= -> ->]; eauto|].
        intros Hno. exfalso. now apply (Hno heads a).
    + injection Hserve as <- <- <-. cbn [recentPayloads payloadIdCounter].
      split; [reflexivity|].
      split; [intros heads' a' [= -> ->]; eauto|].
      intros Hno. exfalso. now apply (Hno heads a).
  - rewrite ForkchoiceUpdatedV1_no_attributes in Hserve.
    injection Hserve as <- <- <-.
    split; [reflexivity|].
    split; [intros heads' a' [=]|reflexivity].
  - rewrite ForkchoiceUpdatedV1_nil_heads in Hserve.
    injection Hserve as <- <- <-.
    split; [reflexivity|].
    split; [intros heads' a' [=]|reflexivity].
  - rewrite ForkchoiceUpdatedV1_nil_heads in Hserve.
    injection Hserve as <- <- <-.
    split; [reflexivity|].
    split; [intros heads' a' [=]|reflexivity].
Qed.
End Frame.

(** C3 as first stated fails: on a fresh backend over the toy chain, a
    prepare request on the unknown head 9 fails (the chain component cannot
    assemble a block), the cache stays empty, yet the counter has gone from
    0 to 1. *)
Lemma C3_counterexample :
  @NewEngineBackend Toy.component Toy.chain0 = Ok Toy.backend0
  /\ exists err e' ev,
       @ForkchoiceUpdatedV1 Toy.component (Some (Toy.heads 9)) (Some (Toy.attrs 1000)) Toy.backend0
         = (Err err, e', ev)
       /\ recentPayloads e' = recentPayloads Toy.backend0
       /\ payloadIdCounter Toy.backend0 = 0%Z
       /\ payloadIdCounter e' = 1%Z
       /\ payloadIdCounter e' <> payloadIdCounter Toy.backend0.
Proof.
  split; [reflexivity|].
  eexists. eexists. eexists.
  split; [vm_compute; reflexivity|].
  cbn. repeat split. discriminate.
Qed.

(** On the toy chain: the failing prepare request on the unknown head 9. *)
Lemma C3_witness :
  exists e' rsp ev,
    @serve Toy.component (Toy.prepare 9 1000) Toy.backend0 = (rsp, e', ev)
    /\ issuedID rsp = None
    /\ recentPayloads e' = recentPayloads Toy.backend0
    /\ payloadIdCounter e' = 1%Z.
Proof.
  eexists. eexists. eexists.
  assert (Hs : @serve Toy.component (Toy.prepare 9 1000) Toy.backend0 =
               (forkchoiceUpdatedResponse (Err (@chainError Toy.component "unknown parent"%string)),
                @Build_EngineBackend Toy.component Toy.chain0 1
                  {| LRU.size := 10; LRU.evictList := [] |},
                [Log Info "Forkchoice updated"%string; Log Info "Preparing new payload"%string;
                 CallAddNewBlock 9 0 1000 30000000 0;
                 Log Error "Failed to create block, cannot build new payload"%string]))
    by reflexivity.
  split; [exact Hs|].
  split; [reflexivity|].
  destruct (@C3_only_successful_prepare_caches Toy.component _ _ _ _ _ Hs eq_refl)
    as (_ & Hprep & _).
  destruct (Hprep (Toy.heads 9) (Toy.attrs 1000) eq_refl) as (_ & Hcache & Hctr).
  split; [exact Hcache|exact Hctr].
Defined.

(* ================================================================== *)
(** ** The identifier encoding *)

Section Encoding.
Local Open Scope Z_scope.

Lemma AddUint64_range (c d : Z) : 0 <= AddUint64 c d < uint64_modulus.
Proof. unfold AddUint64, uint64_modulus. apply Z.mod_pos_bound. lia. Qed.

Lemma AddUint64_small (c d : Z) :
  0 <= c + d < uint64_modulus -> AddUint64 c d = c + d.
Proof. intros H. unfold AddUint64. now apply Z.mod_small. Qed.

(** One byte of the big-endian reading: the bits above position [k + 8],
    shifted up by eight, together with the byte at position [k] are the
    bits above position [k]. *)
Lemma be_step (v k : Z) :
  0 <= k ->
  Z.lor (Z.shiftl (Z.shiftr v (k + 8)) 8) (byte_of (Z.shiftr v k)) = Z.shiftr v k.
Proof.
  intros Hk. unfold byte_of. apply Z.bits_inj'. intros n Hn.
  rewrite Z.lor_spec, Z.land_spec, Z.shiftl_spec by lia.
  rewrite !(Z.shiftr_spec v k n) by lia.
  change 255 with (Z.ones 8). rewrite Z.testbit_ones_nonneg by lia.
  destruct (Z.ltb_spec n 8) as [Hlt|Hge].
  - rewrite (Z.testbit_neg_r _ (n - 8)) by lia.
    rewrite andb_true_r. reflexivity.
  - rewrite andb_false_r, orb_false_r.
    rewrite Z.shiftr_spec by lia. f_equal. lia.
Qed.

Lemma shiftr_64_small (v : Z) : 0 <= v < uint64_modulus -> Z.shiftr v 64 = 0.
Proof.
  intros H. rewrite Z.shiftr_div_pow2 by lia.
  apply Z.div_small. exact H.
Qed.

(** Decoding an encoded 64-bit value gives the value back. *)
Lemma Uint64_PutUint64 (v : Z) :
  0 <= v < uint64_modulus -> Uint64 (PutUint64 v) = v.
Proof.
  intros H. unfold Uint64, PutUint64. cbn [fold_left].
  rewrite <- (shiftr_64_small H) at 1.
  change 64 with (56 + 8) at 1. rewrite be_step by lia.
  change 56 with (48 + 8) at 1. rewrite be_step by lia.
  change 48 with (40 + 8) at 1. rewrite be_step by lia.
  change 40 with (32 + 8) at 1. rewrite be_step by lia.
  change 32 with (24 + 8) at 1. rewrite be_step by lia.
  change 24 with (16 + 8) at 1. rewrite be_step by lia.
  change 16 with (8 + 8) at 1. rewrite be_step by lia.
  replace (byte_of v) with (byte_of (Z.shiftr v 0)) by (now rewrite Z.shiftr_0_r).
  change 8 with (0 + 8) at 1. rewrite be_step by lia.
  apply Z.shiftr_0_r.
Qed.

Lemma Uint64_zeroPayloadID : Uint64 zeroPayloadID = 0.
Proof. reflexivity. Qed.

Lemma PutUint64_one : PutUint64 1 = [0; 0; 0; 0; 0; 0; 0; 1].
Proof. reflexivity. Qed.
End Encoding.

(* ================================================================== *)
(** ** Issued identifiers *)

Section Identifiers.
Context {cc : ChainComponent}.
Local Open Scope Z_scope.

(** One request: the counter moves by one exactly on a prepare request,
    and an identifier handed out is the encoding of the new counter. *)
Lemma serve_counter (rq : Request) (e : EngineBackend) :
  payloadIdCounter (snd (fst (serve rq e))) =
    AddUint64 (payloadIdCounter e) (prepareCount [rq])
  \/ (prepareCount [rq] = 0
      /\ payloadIdCounter (snd (fst (serve rq e))) = payloadIdCounter e).
Proof.
  destruct rq as [id|payload|[heads|] [a|]]; cbn [serve prepareCount].
  - right. split; [reflexivity|].
    pose proof (GetPayloadV1_backend e id) as Hb.
    destruct (GetPayloadV1 id e) as [[r e1] ev1]. cbn [fst snd] in *.
    subst e1. reflexivity.
  - right. split; [reflexivity|].
    pose proof (NewPayloadV1_backend e payload) as [Hc _].
    destruct (NewPayloadV1 payload e) as [[r e1] ev1]. exact Hc.
  - left. rewrite ForkchoiceUpdatedV1_prepare. cbv zeta.
    destruct AddNewBlock as [[bl|err] ch]; [|reflexivity].
    destruct (BlockToPayload bl); reflexivity.
  - right. split; reflexivity.
  - right. split; reflexivity.
  - right. split; reflexivity.
Qed.

Lemma serve_issued (rq : Request) (e : EngineBackend) (id : PayloadID) :
  issuedID (fst (fst (serve rq e))) = Some id ->
  prepareCount [rq] = 1
  /\ id = PutUint64 (AddUint64 (payloadIdCounter e) 1).
Proof.
  destruct rq as [k|payload|[heads|] [a|]]; cbn [serve prepareCount].
  - destruct (GetPayloadV1 k e) as [[r e1] ev1]. discriminate.
  - destruct (NewPayloadV1 payload e) as [[r e1] ev1]. discriminate.
  - rewrite ForkchoiceUpdatedV1_prepare. cbv zeta.
    destruct AddNewBlock as [[bl|err] ch]; [|discriminate].
    destruct (BlockToPayload bl); [|discriminate].
    cbn. intros [= <-]. split; reflexivity.
  - discriminate.
  - discriminate.
  - discriminate.
Qed.

Lemma prepareCount_nonneg (rqs : list Request) : 0 <= prepareCount rqs.
Proof.
  induction rqs as [|[id|payload|[heads|] [a|]] rest IH]; cbn [prepareCount]; lia.
Qed.

Lemma prepareCount_cons (rq : Request) (rqs : list Request) :
  prepareCount (rq :: rqs) = prepareCount [rq] + prepareCount rqs.
Proof. destruct rq as [id|payload|[heads|] [a|]]; cbn [prepareCount]; lia. Qed.

Lemma serveAll_cons (rq : Request) (rqs : list Request) (e : EngineBackend) :
  serveAll (rq :: rqs) e =
    (fst (fst (serve rq e)) :: fst (serveAll rqs (snd (fst (serve rq e)))),
     snd (serveAll rqs (snd (fst (serve rq e))))).
Proof.
  cbn [serveAll]. destruct (serve rq e) as [[rsp e1] ev].
  cbn [fst snd]. destruct (serveAll rqs e1). reflexivity.
Qed.

(** As long as the counter does not wrap, it counts the prepare requests
    and the identifiers handed out decode to strictly increasing values
    above the counter's starting point. *)
Lemma issued_increasing (rqs : list Request) :
  forall e : EngineBackend,
    0 <= payloadIdCounter e ->
    payloadIdCounter e + prepareCount rqs < uint64_modulus ->
    payloadIdCounter (snd (serveAll rqs e)) = payloadIdCounter e + prepareCount rqs
    /\ StronglySorted Z.lt (map Uint64 (issuedIDs (fst (serveAll rqs e))))
    /\ Forall (fun x => payloadIdCounter e < x <= payloadIdCounter e + prepareCount rqs)
              (map Uint64 (issuedIDs (fst (serveAll rqs e)))).
Proof.
  induction rqs as [|rq rest IH]; intros e Hc Hb.
  - cbn. split; [lia|]. split; constructor.
  - rewrite serveAll_cons. cbn [fst snd issuedIDs].
    rewrite prepareCount_cons in *.
    pose proof (prepareCount_nonneg rest) as Hrest.
    pose proof (prepareCount_nonneg [rq]) as Hone.
    set (e1 := snd (fst (serve rq e))) in *.
    assert (He1 : payloadIdCounter e1 = payloadIdCounter e + prepareCount [rq]).
    { destruct (serve_counter rq e) as [H|[H0 H]]; fold e1 in H.
      - rewrite H. apply AddUint64_small. lia.
      - lia. }
    destruct (IH e1) as (IHc & IHs & IHf); [lia|lia|].
    split; [lia|].
    destruct (issuedID (fst (fst (serve rq e)))) as [id|] eqn:Hid.
    + apply serve_issued in Hid as [H1 ->].
      cbn [map]. rewrite Uint64_PutUint64 by apply AddUint64_range.
      rewrite AddUint64_small by lia.
      split.
      * constructor; [exact IHs|].
        eapply Forall_impl; [|exact IHf]. cbv beta. intros x Hx. lia.
      * constructor; [lia|].
        eapply Forall_impl; [|exact IHf]. cbv beta. intros x Hx. lia.
    + split; [exact IHs|].
      eapply Forall_impl; [|exact IHf]. cbv beta. intros x Hx. lia.
Qed.

Lemma StronglySorted_lt_NoDup (l : list Z) : StronglySorted Z.lt l -> NoDup l.
Proof.
  induction 1 as [|x l Hs IH Hf]; constructor; [|exact IH].
  intros Hin. rewrite Forall_forall in Hf. specialize (Hf x Hin). lia.
Qed.

Lemma NoDup_map_inv_Z (A : Type) (f : A -> Z) (l : list A) :
  NoDup (map f l) -> NoDup l.
Proof.
  induction l as [|a l IH]; cbn [map]; intros H; [constructor|].
  inversion H as [|x l' Hnin Hnd]; subst. constructor; [|now apply IH].
  intros Hin. apply Hnin. now apply in_map.
Qed.

(** C2 (amended).  On a backend fresh from [NewEngineBackend] the counter
    is 0.  For every sequence of requests with fewer than 2^64 prepare
    requests (updates with attributes), mixed with requests of any other
    kind, the PayloadIDs returned, read as big-endian unsigned integers,
    are strictly increasing in issuance order, hence pairwise distinct;
    each is at least 1, so the all-zero identifier is not among them; and
    the first prepare request of the sequence, if it succeeds, returns
    the identifier that encodes 1. *)
Theorem C2_payload_ids_strictly_increasing :
  forall (mock : MockChain) (e : EngineBackend) (rqs : list Request),
    NewEngineBackend mock = Ok e ->
    prepareCount rqs < uint64_modulus ->
    payloadIdCounter e = 0
    /\ StronglySorted Z.lt (map Uint64 (issuedIDs (fst (serveAll rqs e))))
    /\ NoDup (issuedIDs (fst (serveAll rqs e)))
    /\ Forall (fun id => 1 <= Uint64 id) (issuedIDs (fst (serveAll rqs e)))
    /\ ~ In zeroPayloadID (issuedIDs (fst (serveAll rqs e)))
    /\ (forall before heads a r,
           prepareCount before = 0 ->
           fst (fst (ForkchoiceUpdatedV1 (Some heads) (Some a) (snd (serveAll before e)))) = Ok r ->
           fcPayloadID r = Some [0; 0; 0; 0; 0; 0; 0; 1]).
Proof.
  intros mock e rqs Hnew Hlt.
  assert (H0 : payloadIdCounter e = 0).
  { unfold NewEngineBackend in Hnew. cbn in Hnew. injection Hnew as <-. reflexivity. }
  destruct (issued_increasing rqs e) as (_ & Hs & Hf); [lia|lia|].
  split; [exact H0|].
  split; [exact Hs|].
  split; [eapply NoDup_map_inv_Z, StronglySorted_lt_NoDup; exact Hs|].
  assert (Hall : Forall (fun id => 1 <= Uint64 id) (issuedIDs (fst (serveAll rqs e)))).
  { rewrite Forall_map in Hf. eapply Forall_impl; [|exact Hf].
    cbv beta. intros id Hid. lia. }
  split; [exact Hall|].
  split.
  - intros Hin. rewrite Forall_forall in Hall. specialize (Hall _ Hin).
    rewrite Uint64_zeroPayloadID in Hall. lia.
  - intros before heads a r Hzero Hok.
    destruct (issued_increasing before e) as (Hc & _); [lia|unfold uint64_modulus; lia|].
    rewrite ForkchoiceUpdatedV1_prepare in Hok. cbv zeta in Hok.
    rewrite Hc, H0, Hzero in Hok.
    destruct AddNewBlock as [[bl|err] ch]; [|discriminate].
    destruct (BlockToPayload bl); [|discriminate].
    cbn [fst] in Hok. injection Hok as <-. reflexivity.
Qed.
End Identifiers.

(** On the toy chain: three prepare requests, the second one failing, and a
    retrieval in between. *)
Lemma C2_witness :
  StronglySorted Z.lt
    (map Uint64
       (issuedIDs
          (fst (@serveAll Toy.component
                  [Toy.prepare 7 1; Toy.prepare 9 2;
                   engine_getPayloadV1 [0; 0; 0; 0; 0; 0; 0; 1]; Toy.prepare 7 3]
                  Toy.backend0)))).
Proof.
  refine (proj1 (proj2
    (@C2_payload_ids_strictly_increasing Toy.component Toy.chain0 Toy.backend0
       [Toy.prepare 7 1; Toy.prepare 9 2;
        engine_getPayloadV1 [0; 0; 0; 0; 0; 0; 0; 1]; Toy.prepare 7 3] _ _))).
  - reflexivity.
  - reflexivity.
Defined.

(** ** The counter wraps *)

Section Wrap.
Local Open Scope Z_scope.

(** On the toy chain a prepare request on the known head 7 always
    succeeds, so every such request hands out the next counter value. *)
Lemma toy_prepare_step (e : @EngineBackend Toy.component) :
  Toy.headers (mockChain e) = Toy.headers Toy.chain0 ->
  issuedID (fst (fst (@serve Toy.component (Toy.prepare 7 1) e))) =
    Some (PutUint64 (AddUint64 (payloadIdCounter e) 1))
  /\ payloadIdCounter (snd (fst (@serve Toy.component (Toy.prepare 7 1) e))) =
       AddUint64 (payloadIdCounter e) 1
  /\ Toy.headers (mockChain (snd (fst (@serve Toy.component (Toy.prepare 7 1) e)))) =
       Toy.headers Toy.chain0.
Proof.
  intros Hh. unfold Toy.prepare. cbn [serve].
  rewrite ForkchoiceUpdatedV1_prepare. cbv zeta.
  change (@AddNewBlock Toy.component) with Toy.addBlock.
  unfold Toy.addBlock. rewrite Hh.
  change (Toy.header (Toy.headers Toy.chain0) (HeadBlockHash (Toy.heads 7)))
    with (Some {| Number := 0; Time := 0; Difficulty := 100 |}).
  cbv iota beta.
  change (@BlockToPayload Toy.component) with
    (fun b : ExecutionPayloadV1 => @inl ExecutionPayloadV1 string b).
  cbv beta iota. cbn [fst snd issuedID fcPayloadID payloadIdCounter mockChain Toy.headers].
  repeat split.
Qed.

Lemma toy_prepare_issued (n : nat) :
  forall e : @EngineBackend Toy.component,
    Toy.headers (mockChain e) = Toy.headers Toy.chain0 ->
    issuedIDs (fst (@serveAll Toy.component (repeat (Toy.prepare 7 1) n) e)) =
      map (fun i => PutUint64 ((payloadIdCounter e + Z.of_nat i) mod uint64_modulus))
          (seq 1 n).
Proof.
  induction n as [|n IH]; intros e Hh; [reflexivity|].
  cbn [repeat]. rewrite serveAll_cons.
  destruct (toy_prepare_step e Hh) as (Hid & Hc & Hh').
  cbn [fst issuedIDs]. rewrite Hid, (IH _ Hh'), Hc.
  cbn [seq map]. f_equal.
  rewrite <- (seq_shift n 1), map_map. apply map_ext. intros i.
  unfold AddUint64. rewrite Zplus_mod_idemp_l. f_equal. f_equal. lia.
Qed.
End Wrap.

(** C2 as first stated fails once the 64-bit counter wraps: on a fresh
    backend over the toy chain, the last of 2^64 successful prepare
    requests draws the counter value 0 and is handed the all-zero
    identifier, so the identifiers handed out are not increasing. *)
Lemma C2_counterexample :
  @NewEngineBackend Toy.component Toy.chain0 = Ok Toy.backend0
  /\ In zeroPayloadID
       (issuedIDs
          (fst (@serveAll Toy.component
                  (repeat (Toy.prepare 7 1) (Z.to_nat uint64_modulus)) Toy.backend0)))
  /\ ~ StronglySorted Z.lt
        (map Uint64
           (issuedIDs
              (fst (@serveAll Toy.component
                      (repeat (Toy.prepare 7 1) (Z.to_nat uint64_modulus)) Toy.backend0)))).
Proof.
  split; [reflexivity|].
  rewrite toy_prepare_issued by reflexivity.
  assert (Hm : Z.of_nat (Z.to_nat uint64_modulus) = uint64_modulus)
    by (apply Z2Nat.id; unfold uint64_modulus; lia).
  change (payloadIdCounter Toy.backend0) with 0%Z.
  split.
  - apply in_map_iff. exists (Z.to_nat uint64_modulus). split.
    + rewrite Hm. reflexivity.
    + apply in_seq. unfold uint64_modulus in *. lia.
  - destruct (Z.to_nat uint64_modulus) as [|m] eqn:E.
    + unfold uint64_modulus in Hm. cbn [Z.of_nat] in Hm. lia.
    + cbn [seq map]. intros Hs. inversion Hs as [|x l _ Hall]; subst.
      rewrite Forall_forall in Hall.
      assert (Hin : In 0%Z
                (map Uint64
                   (map (fun i => PutUint64 ((0 + Z.of_nat i) mod uint64_modulus))
                      (seq 2 m)))).
      { apply in_map_iff. exists zeroPayloadID. split; [reflexivity|].
        apply in_map_iff. exists (S m). split.
        - rewrite Hm. reflexivity.
        - apply in_seq. unfold uint64_modulus in Hm. lia. }
      specialize (Hall 0%Z Hin). revert Hall. vm_compute. discriminate.
Qed.

(* ================================================================== *)
(** ** Invariants of the payload cache *)

Section CacheInvariants.
Context {cc : ChainComponent}.
Local Open Scope string_scope.

Local Abbreviation Peek := (LRU.Peek PayloadID_eq_dec).
Local Abbreviation Get := (LRU.Get PayloadID_eq_dec).
Local Abbreviation Add := (LRU.Add PayloadID_eq_dec).

(** Every value in the cache is a wire payload that [BlockToPayload]
    returned. *)
Local Abbreviation holdsPayloads c :=
  (forall (id : PayloadID) (v : iface),
      In (id, v) (LRU.evictList c) ->
      exists bl p, BlockToPayload bl = inl p /\ v = IfacePayloadV1 p).

(** The cache after one request: untouched, refreshed by a [Get], or
    extended by the [Add] of a successful prepare request under the
    identifier the response carries. *)
Lemma serve_cache (rq : Request) (e : EngineBackend) :
  recentPayloads (snd (fst (serve rq e))) = recentPayloads e
  \/ (exists id, recentPayloads (snd (fst (serve rq e))) = snd (Get id (recentPayloads e)))
  \/ (exists id bl p,
         BlockToPayload bl = inl p
         /\ issuedID (fst (fst (serve rq e))) = Some id
         /\ recentPayloads (snd (fst (serve rq e))) =
              Add id (IfacePayloadV1 p) (recentPayloads e)).
Proof.
  destruct rq as [id|payload|[heads|] [a|]]; cbn [serve].
  - right. left. exists id.
    pose proof (GetPayloadV1_backend e id) as Hb.
    destruct (GetPayloadV1 id e) as [[r e1] ev1]. cbn [fst snd] in *.
    subst e1. reflexivity.
  - left. pose proof (NewPayloadV1_backend e payload) as [_ Hr].
    destruct (NewPayloadV1 payload e) as [[r e1] ev1]. exact Hr.
  - rewrite ForkchoiceUpdatedV1_prepare. cbv zeta.
    destruct AddNewBlock as [[bl|err] ch]; [|now left].
    destruct (BlockToPayload bl) as [p|err] eqn:Hp; [|now left].
    right. right. exists (PutUint64 (AddUint64 (payloadIdCounter e) 1)), bl, p.
    repeat split. exact Hp.
  - now left.
  - now left.
  - now left.
Qed.

Lemma serve_holdsPayloads (rq : Request) (e : EngineBackend) :
  holdsPayloads (recentPayloads e) ->
  holdsPayloads (recentPayloads (snd (fst (serve rq e)))).
Proof.
  intros Hinv id v Hin.
  destruct (serve_cache rq e) as [H|[(k & H)|(k & bl & p & Hp & _ & H)]];
    rewrite H in Hin.
  - now apply (Hinv id v).
  - apply LRUFacts.In_Get in Hin. now apply (Hinv id v).
  - apply LRUFacts.In_Add in Hin as [[= -> ->]|Hin]; [eauto|now apply (Hinv id v)].
Qed.

Lemma serve_bounded (rq : Request) (e : EngineBackend) :
  LRU.size (recentPayloads e) = 10%nat ->
  (LRU.Len (recentPayloads e) <= 10)%nat ->
  LRU.size (recentPayloads (snd (fst (serve rq e)))) = 10%nat
  /\ (LRU.Len (recentPayloads (snd (fst (serve rq e)))) <= 10)%nat.
Proof.
  intros Hsz Hlen.
  destruct (serve_cache rq e) as [H|[(k & H)|(k & bl & p & _ & _ & H)]]; rewrite H.
  - now split.
  - rewrite LRUFacts.size_Get. split; [exact Hsz|].
    pose proof (LRUFacts.Len_Get PayloadID_eq_dec k (recentPayloads e)). lia.
  - rewrite LRUFacts.size_Add. split; [exact Hsz|].
    rewrite <- Hsz. apply LRUFacts.Len_Add; lia.
Qed.

Lemma serve_keys (rq : Request) (e : EngineBackend) (id : PayloadID) :
  Peek id (recentPayloads (snd (fst (serve rq e)))) <> None ->
  Peek id (recentPayloads e) <> None
  \/ issuedID (fst (fst (serve rq e))) = Some id.
Proof.
  intros Hin.
  destruct (serve_cache rq e) as [H|[(k & H)|(k & bl & p & _ & Hid & H)]];
    rewrite H in Hin.
  - now left.
  - rewrite LRUFacts.Peek_Get in Hin. now left.
  - destruct (PayloadID_eq_dec id k) as [->|Hne]; [now right|left].
    intros Hnone. apply Hin.
    unfold LRU.Peek in *. apply LRUFacts.lookup_None.
    apply LRUFacts.lookup_None in Hnone.
    intros Hk. apply in_map_iff in Hk as ([k' v'] & Hfst & Hk). cbn in Hfst. subst k'.
    apply LRUFacts.In_Add in Hk as [[= -> ->]|Hk]; [contradiction|].
    apply Hnone. now apply (in_map fst) in Hk.
Qed.

(** What holds of the backend after any sequence of requests. *)
Lemma serveAll_invariant (rqs : list Request) :
  forall e : EngineBackend,
    holdsPayloads (recentPayloads e) ->
    LRU.size (recentPayloads e) = 10%nat ->
    (LRU.Len (recentPayloads e) <= 10)%nat ->
    holdsPayloads (recentPayloads (snd (serveAll rqs e)))
    /\ LRU.size (recentPayloads (snd (serveAll rqs e))) = 10%nat
    /\ (LRU.Len (recentPayloads (snd (serveAll rqs e))) <= 10)%nat
    /\ (forall id, Peek id (recentPayloads (snd (serveAll rqs e))) <> None ->
                   Peek id (recentPayloads e) <> None
                   \/ In id (issuedIDs (fst (serveAll rqs e)))).
Proof.
  induction rqs as [|rq rest IH]; intros e Hp Hsz Hlen.
  - cbn. repeat split; auto.
  - rewrite serveAll_cons. cbn [fst snd].
    destruct (serve_bounded rq e Hsz Hlen) as [Hsz1 Hlen1].
    destruct (IH _ (serve_holdsPayloads rq e Hp) Hsz1 Hlen1) as (Ip & Is & Il & Ik).
    repeat split; auto.
    intros id Hin. cbn [issuedIDs].
    destruct (Ik id Hin) as [H|H].
    + destruct (serve_keys rq e id H) as [H'|H']; [now left|right].
      rewrite H'. now left.
    + right. destruct (issuedID (fst (fst (serve rq e)))); [now right|exact H].
Qed.

Lemma NewEngineBackend_fresh (mock : MockChain) (e : EngineBackend) :
  NewEngineBackend mock = Ok e ->
  e = {| mockChain := mock; payloadIdCounter := 0;
         recentPayloads := {| LRU.size := 10; LRU.evictList := [] |} |}.
Proof. intros [= <-]. reflexivity. Qed.

Lemma reachable_invariant (mock : MockChain) (e : EngineBackend) (rqs : list Request) :
  NewEngineBackend mock = Ok e ->
  holdsPayloads (recentPayloads (snd (serveAll rqs e)))
  /\ LRU.size (recentPayloads (snd (serveAll rqs e))) = 10%nat
  /\ (LRU.Len (recentPayloads (snd (serveAll rqs e))) <= 10)%nat
  /\ (forall id, Peek id (recentPayloads (snd (serveAll rqs e))) <> None ->
                 In id (issuedIDs (fst (serveAll rqs e)))).
Proof.
  intros Hnew. apply NewEngineBackend_fresh in Hnew. subst e.
  destruct (serveAll_invariant rqs
              {| mockChain := mock; payloadIdCounter := 0;
                 recentPayloads := {| LRU.size := 10; LRU.evictList := [] |} |})
    as (Hp & Hs & Hl & Hk).
  - intros id v [].
  - reflexivity.
  - cbn. lia.
  - repeat split; auto.
    intros id Hin. destruct (Hk id Hin) as [H|H]; [|exact H].
    exfalso. now apply H.
Qed.

(** C8.  On a backend reached from [NewEngineBackend] by any sequence of
    requests: an identifier not in the cache is answered with the
    [rpcError] carrying the code [UnavailablePayload]; the backend record
    is unchanged and the only event is the warning, with no call into the
    chain component.  An identifier that no response has handed out is not
    in the cache.  An identifier in the cache is answered with the
    payload stored under it. *)
Theorem C8_get_payload_unavailable_or_stored :
  forall (mock : MockChain) (e0 : EngineBackend) (rqs : list Request) (id : PayloadID),
    NewEngineBackend mock = Ok e0 ->
    (Peek id (recentPayloads (snd (serveAll rqs e0))) = None ->
     GetPayloadV1 id (snd (serveAll rqs e0)) =
       (Err (rpcError "unknown payload %d" id UnavailablePayload),
        snd (serveAll rqs e0),
        [Log Warn "Cannot get unknown payload"]))
    /\ (~ In id (issuedIDs (fst (serveAll rqs e0))) ->
        Peek id (recentPayloads (snd (serveAll rqs e0))) = None)
    /\ (forall v, Peek id (recentPayloads (snd (serveAll rqs e0))) = Some v ->
          exists p, v = IfacePayloadV1 p
                    /\ fst (fst (GetPayloadV1 id (snd (serveAll rqs e0)))) = Ok p).
Proof.
  intros mock e0 rqs id Hnew.
  destruct (reachable_invariant rqs Hnew) as (Hp & _ & _ & Hk).
  split; [apply GetPayloadV1_miss|].
  split.
  - intros Hnot.
    destruct (Peek id (recentPayloads (snd (serveAll rqs e0)))) eqn:E; [|reflexivity].
    exfalso. apply Hnot, Hk. rewrite E. discriminate.
  - intros v Hv.
    destruct (Hp id v (LRUFacts.lookup_In _ _ _ Hv)) as (bl & p & _ & ->).
    exists p. split; [reflexivity|].
    rewrite (GetPayloadV1_hit _ _ Hv). reflexivity.
Qed.

(** C10.  On a backend reached from [NewEngineBackend] by any sequence of
    requests, every value in the cache is a wire payload returned by
    [BlockToPayload], stored under an identifier that a successful
    prepare request handed out; so the type assertion of [GetPayloadV1]
    succeeds on every hit and the call never panics. *)
Theorem C10_cached_values_are_payloads :
  forall (mock : MockChain) (e0 : EngineBackend) (rqs : list Request),
    NewEngineBackend mock = Ok e0 ->
    (forall id v,
        In (id, v) (LRU.evictList (recentPayloads (snd (serveAll rqs e0)))) ->
        In id (issuedIDs (fst (serveAll rqs e0)))
        /\ exists bl p, BlockToPayload bl = inl p /\ v = IfacePayloadV1 p)
    /\ (forall id, fst (fst (GetPayloadV1 id (snd (serveAll rqs e0)))) <> Panic).
Proof.
  intros mock e0 rqs Hnew.
  destruct (reachable_invariant rqs Hnew) as (Hp & _ & _ & Hk).
  split.
  - intros id v Hin. split; [|now apply (Hp id v)].
    apply Hk. unfold LRU.Peek. intros Hnone.
    apply LRUFacts.lookup_None in Hnone. apply Hnone.
    now apply (in_map fst) in Hin.
  - intros id.
    destruct (Peek id (recentPayloads (snd (serveAll rqs e0)))) as [v|] eqn:E.
    + rewrite (GetPayloadV1_hit _ _ E). cbn [fst].
      destruct (Hp id v (LRUFacts.lookup_In _ _ _ E)) as (bl & p & _ & ->).
      discriminate.
    + rewrite (GetPayloadV1_miss _ _ E). discriminate.
Qed.
End CacheInvariants.

(** On the toy chain after one successful prepare request: identifier 2 is
    unavailable, identifier 1 yields a payload. *)
Lemma C8_witness :
  @GetPayloadV1 Toy.component [0; 0; 0; 0; 0; 0; 0; 2]
      (snd (@serveAll Toy.component [Toy.prepare 7 1000] Toy.backend0)) =
    (Err (@rpcError Toy.component "unknown payload %d" [0; 0; 0; 0; 0; 0; 0; 2]
            UnavailablePayload),
     snd (@serveAll Toy.component [Toy.prepare 7 1000] Toy.backend0),
     [Log Warn "Cannot get unknown payload"])
  /\ exists p,
       fst (fst (@GetPayloadV1 Toy.component [0; 0; 0; 0; 0; 0; 0; 1]
                   (snd (@serveAll Toy.component [Toy.prepare 7 1000] Toy.backend0)))) = Ok p.
Proof.
  split.
  - destruct (@C8_get_payload_unavailable_or_stored Toy.component Toy.chain0 Toy.backend0
                [Toy.prepare 7 1000] [0; 0; 0; 0; 0; 0; 0; 2]%Z eq_refl) as (Hmiss & _ & _).
    apply Hmiss. reflexivity.
  - destruct (@C8_get_payload_unavailable_or_stored Toy.component Toy.chain0 Toy.backend0
                [Toy.prepare 7 1000] [0; 0; 0; 0; 0; 0; 0; 1]%Z eq_refl) as (_ & _ & Hhit).
    destruct (Hhit (IfacePayloadV1 (Toy.payload 7 1000)) eq_refl) as (p & _ & Hok).
    exists p. exact Hok.
Defined.

(** On the toy chain after two successful prepare requests: retrieving a
    cached and an unknown identifier. *)
Lemma C10_witness :
  fst (fst (@GetPayloadV1 Toy.component [0; 0; 0; 0; 0; 0; 0; 2]
              (snd (@serveAll Toy.component [Toy.prepare 7 1000; Toy.prepare 7 1001]
                      Toy.backend0)))) <> Panic
  /\ fst (fst (@GetPayloadV1 Toy.component [0; 0; 0; 0; 0; 0; 0; 3]
                 (snd (@serveAll Toy.component [Toy.prepare 7 1000; Toy.prepare 7 1001]
                         Toy.backend0)))) <> Panic.
Proof.
  split;
    apply (proj2 (@C10_cached_values_are_payloads Toy.component Toy.chain0 Toy.backend0
                    [Toy.prepare 7 1000; Toy.prepare 7 1001] eq_refl)).
Defined.

(* ================================================================== *)
(** ** Recency order of the cache *)

Module LRUOrder.
Import CacheTrace.
Section Order.
Variables K V : Type.
Variable K_eq_dec : forall a b : K, {a = b} + {a <> b}.

Local Abbreviation lookup := (LRU.lookup K_eq_dec).
Local Abbreviation remove := (LRU.remove K_eq_dec).
Local Abbreviation lastUse := (CacheTrace.lastUse (V := V) K_eq_dec).
Local Abbreviation runOps := (CacheTrace.runOps K_eq_dec).
Local Abbreviation runOp := (CacheTrace.runOp K_eq_dec).
Local Abbreviation keys := (map (@fst K V)).

(** *** Histories grow at the end *)

Lemma runOps_snoc (ops : list (op K V)) (o : op K V) (c : LRU.Cache K V) :
  runOps (ops ++ [o]) c = runOp (runOps ops c) o.
Proof. unfold CacheTrace.runOps. now rewrite fold_left_app. Qed.

Lemma addedEntries_app (ops1 ops2 : list (op K V)) :
  addedEntries (ops1 ++ ops2) = addedEntries ops1 ++ addedEntries ops2.
Proof.
  induction ops1 as [|[k v|k] ops1 IH]; cbn [app addedEntries]; [reflexivity| |exact IH].
  now rewrite IH.
Qed.

Lemma addedKeys_app (ops1 ops2 : list (op K V)) :
  addedKeys (ops1 ++ ops2) = addedKeys ops1 ++ addedKeys ops2.
Proof. unfold addedKeys. now rewrite addedEntries_app, map_app. Qed.

Lemma lastUse_le (k : K) (ops : list (op K V)) : (lastUse k ops <= length ops)%nat.
Proof.
  induction ops as [|o ops IH]; cbn [CacheTrace.lastUse length]; [lia|].
  destruct (lastUse k ops); [|lia].
  destruct (K_eq_dec k (opKey o)); lia.
Qed.

Lemma lastUse_snoc (k : K) (ops : list (op K V)) (o : op K V) :
  lastUse k (ops ++ [o]) =
    if K_eq_dec k (opKey o) then S (length ops) else lastUse k ops.
Proof.
  induction ops as [|a ops IH]; cbn [app CacheTrace.lastUse length].
  - destruct (K_eq_dec k (opKey o)); reflexivity.
  - rewrite IH. destruct (K_eq_dec k (opKey o)); reflexivity.
Qed.

(** *** Sublists keep distinctness and order *)

Lemma In_keys_remove (k k' : K) (l : list (K * V)) :
  In k' (keys (remove k l)) -> In k' (keys l) /\ k' <> k.
Proof.
  induction l as [|[k0 v0] l IH]; cbn [LRU.remove map fst]; [intros []|].
  destruct (K_eq_dec k k0) as [->|Hne].
  - intros H. apply IH in H as [H1 H2]. split; [now right|exact H2].
  - cbn [map fst]. intros [<-|H].
    + split; [now left|congruence].
    + apply IH in H as [H1 H2]. split; [now right|exact H2].
Qed.

Lemma NoDup_keys_remove (k : K) (l : list (K * V)) :
  NoDup (keys l) -> NoDup (keys (remove k l)).
Proof.
  induction l as [|[k0 v0] l IH]; cbn [LRU.remove map fst]; [auto|].
  intros H. inversion H as [|x xs Hnin Hnd]; subst.
  destruct (K_eq_dec k k0); [now apply IH|].
  cbn [map fst]. constructor; [|now apply IH].
  intros Hin. apply In_keys_remove in Hin as [Hin _]. contradiction.
Qed.

Lemma Sorted_keys_remove (R : K -> K -> Prop) (k : K) (l : list (K * V)) :
  StronglySorted R (keys l) -> StronglySorted R (keys (remove k l)).
Proof.
  induction l as [|[k0 v0] l IH]; cbn [LRU.remove map fst]; [auto|].
  intros H. inversion H as [|x xs Hs Hf]; subst.
  destruct (K_eq_dec k k0); [now apply IH|].
  cbn [map fst]. constructor; [now apply IH|].
  rewrite Forall_forall in *. intros y Hy.
  apply In_keys_remove in Hy as [Hy _]. now apply Hf.
Qed.

Lemma keys_removelast (l : list (K * V)) :
  keys (removelast l) = removelast (keys l).
Proof.
  induction l as [|a l IH]; [reflexivity|].
  destruct l as [|b l]; [reflexivity|].
  change (removelast (a :: b :: l)) with (a :: removelast (b :: l)).
  cbn [map]. rewrite IH. reflexivity.
Qed.

Lemma NoDup_removelast (A : Type) (l : list A) : NoDup l -> NoDup (removelast l).
Proof.
  induction l as [|a l IH]; [auto|].
  destruct l as [|b l]; [intros _; constructor|].
  change (removelast (a :: b :: l)) with (a :: removelast (b :: l)).
  intros H. inversion H as [|x xs Hnin Hnd]; subst.
  constructor; [|now apply IH].
  intros Hin. apply LRUFacts.In_removelast in Hin. contradiction.
Qed.

Lemma Sorted_removelast (A : Type) (R : A -> A -> Prop) (l : list A) :
  StronglySorted R l -> StronglySorted R (removelast l).
Proof.
  induction l as [|a l IH]; [auto|].
  destruct l as [|b l]; [intros _; constructor|].
  change (removelast (a :: b :: l)) with (a :: removelast (b :: l)).
  intros H. inversion H as [|x xs Hs Hf]; subst.
  constructor; [now apply IH|].
  rewrite Forall_forall in *. intros y Hy.
  apply LRUFacts.In_removelast in Hy. now apply Hf.
Qed.

Lemma Sorted_ext_in (A : Type) (R R' : A -> A -> Prop) (l : list A) :
  (forall a b, In a l -> In b l -> R a b -> R' a b) ->
  StronglySorted R l -> StronglySorted R' l.
Proof.
  induction l as [|x l IH]; intros Hext H; [constructor|].
  inversion H as [|y ys Hs Hf]; subst.
  constructor.
  - apply IH; [|exact Hs]. intros a b Ha Hb. apply Hext; now right.
  - rewrite Forall_forall in *. intros y Hy.
    apply Hext; [now left|now right|now apply Hf].
Qed.

Lemma Sorted_snoc_last (A : Type) (R : A -> A -> Prop) (l : list A) (x : A) :
  StronglySorted R (l ++ [x]) -> forall a, In a l -> R a x.
Proof.
  induction l as [|b l IH]; cbn [app]; intros H a Ha; [destruct Ha|].
  inversion H as [|y ys Hs Hf]; subst.
  destruct Ha as [<-|Ha].
  - rewrite Forall_forall in Hf. apply Hf. apply in_or_app. right. now left.
  - now apply IH.
Qed.

Lemma lookup_snoc_other (k k' : K) (v' : V) (l : list (K * V)) :
  k <> k' -> lookup k (l ++ [(k', v')]) = lookup k l.
Proof.
  intros Hne. induction l as [|[k0 v0] l IH]; cbn [app LRU.lookup].
  - destruct (K_eq_dec k k'); [contradiction|reflexivity].
  - destruct (K_eq_dec k k0); [reflexivity|exact IH].
Qed.

Lemma length_remove_NoDup (k : K) (v : V) (l : list (K * V)) :
  NoDup (keys l) -> lookup k l = Some v -> S (length (remove k l)) = length l.
Proof.
  induction l as [|[k0 v0] l IH]; cbn [LRU.lookup LRU.remove map fst length];
    [discriminate|].
  intros Hnd H. inversion Hnd as [|x xs Hnin Hnd']; subst.
  destruct (K_eq_dec k k0) as [->|Hne].
  - now rewrite LRUFacts.remove_absent.
  - cbn [length]. f_equal. now apply IH.
Qed.

(** *** The entries are ordered by their last access *)

(** [newer ops a b]: key [a] was last accessed after key [b]. *)
Local Abbreviation newer ops :=
  (fun a b : K => (lastUse b ops < lastUse a ops)%nat).

Local Abbreviation empty n := (LRU.Build_Cache (K := K) (V := V) n []).

Lemma push_front_ordered (ops : list (op K V)) (o : op K V) (l : list (K * V)) :
  ~ In (opKey o) (keys l) ->
  NoDup (keys l) ->
  StronglySorted (newer ops) (keys l) ->
  NoDup (opKey o :: keys l)
  /\ StronglySorted (newer (ops ++ [o])) (opKey o :: keys l).
Proof.
  intros Hnin Hnd Hs. split; [now constructor|].
  assert (Hold : forall y, In y (keys l) -> lastUse y (ops ++ [o]) = lastUse y ops).
  { intros y Hy. rewrite lastUse_snoc.
    destruct (K_eq_dec y (opKey o)) as [->|]; [contradiction|reflexivity]. }
  constructor.
  - eapply Sorted_ext_in; [|exact Hs]. cbv beta. intros a b Ha Hb Hab.
    rewrite (Hold a Ha), (Hold b Hb). exact Hab.
  - rewrite Forall_forall. intros y Hy. rewrite (Hold y Hy).
    rewrite lastUse_snoc. destruct (K_eq_dec (opKey o) (opKey o)); [|contradiction].
    pose proof (lastUse_le y ops). lia.
Qed.

Lemma order_invariant (n : nat) (ops : list (op K V)) :
  LRU.size (runOps ops (empty n)) = n
  /\ NoDup (keys (LRU.evictList (runOps ops (empty n))))
  /\ StronglySorted (newer ops) (keys (LRU.evictList (runOps ops (empty n)))).
Proof.
  induction ops as [|o ops IH] using rev_ind.
  - cbn. repeat split; constructor.
  - rewrite runOps_snoc. destruct IH as (Hsz & Hnd & Hs).
    set (c := runOps ops (empty n)) in *.
    assert (Htouch : forall v,
               NoDup (keys ((opKey o, v) :: remove (opKey o) (LRU.evictList c)))
               /\ StronglySorted (newer (ops ++ [o]))
                    (keys ((opKey o, v) :: remove (opKey o) (LRU.evictList c)))).
    { intros v. cbn [map fst]. apply push_front_ordered.
      - intros Hin. now apply In_keys_remove in Hin as [_ Hin].
      - now apply NoDup_keys_remove.
      - now apply Sorted_keys_remove. }
    destruct o as [k v|k]; cbn [CacheTrace.runOp opKey] in *.
    + unfold LRU.Add.
      destruct (lookup k (LRU.evictList c)) as [v0|] eqn:E; cbn [LRU.size LRU.evictList].
      * split; [exact Hsz|]. apply Htouch.
      * apply LRUFacts.lookup_None in E.
        destruct (LRU.size c <=? length (LRU.evictList c))%nat;
          cbn [LRU.size LRU.evictList]; (split; [exact Hsz|]).
        -- cbn [map fst]. apply (push_front_ordered ops (OpAdd k v)).
           ++ cbn [opKey]. rewrite keys_removelast. intros Hin.
              apply LRUFacts.In_removelast in Hin. contradiction.
           ++ rewrite keys_removelast. now apply NoDup_removelast.
           ++ rewrite keys_removelast. now apply Sorted_removelast.
        -- cbn [map fst]. now apply (push_front_ordered ops (OpAdd k v)).
    + unfold LRU.Get.
      destruct (lookup k (LRU.evictList c)) as [v0|] eqn:E; cbn [snd LRU.size LRU.evictList].
      * split; [exact Hsz|]. apply Htouch.
      * apply LRUFacts.lookup_None in E.
        split; [exact Hsz|]. split; [exact Hnd|].
        eapply Sorted_ext_in; [|exact Hs]. cbv beta. intros a b Ha Hb Hab.
        rewrite !lastUse_snoc. cbn [opKey].
        destruct (K_eq_dec a k) as [->|]; [contradiction|].
        destruct (K_eq_dec b k) as [->|]; [contradiction|exact Hab].
Qed.

(** *** Distinct insertions below the capacity are all kept *)

Lemma distinct_adds_kept (n : nat) (ops : list (op K V)) :
  NoDup (addedKeys ops) ->
  (length (addedKeys ops) <= n)%nat ->
  (forall k v, In (k, v) (addedEntries ops) ->
               lookup k (LRU.evictList (runOps ops (empty n))) = Some v)
  /\ (forall k, In k (keys (LRU.evictList (runOps ops (empty n)))) ->
                In k (addedKeys ops))
  /\ LRU.Len (runOps ops (empty n)) = length (addedKeys ops).
Proof.
  induction ops as [|o ops IH] using rev_ind; intros Hnd Hlen.
  - cbn. repeat split; intros; contradiction.
  - rewrite runOps_snoc.
    rewrite addedKeys_app in Hnd, Hlen. rewrite length_app in Hlen.
    destruct IH as (Hl & Hk & Hn);
      [eapply NoDup_app_remove_r; exact Hnd|lia|].
    destruct (order_invariant n ops) as (Hsz & Hdist & _).
    set (c := runOps ops (empty n)) in *.
    rewrite addedEntries_app, addedKeys_app.
    destruct o as [k v|k]; cbn [CacheTrace.runOp addedEntries addedKeys map fst] in *.
    + assert (Hfresh : ~ In k (addedKeys ops)).
      { intros Hin. apply NoDup_remove_2 in Hnd. rewrite app_nil_r in Hnd. contradiction. }
      assert (E : lookup k (LRU.evictList c) = None).
      { apply LRUFacts.lookup_None. intros Hin. now apply Hfresh, Hk. }
      unfold LRU.Add, LRU.Len in *. rewrite E.
      assert (F : (LRU.size c <=? length (LRU.evictList c))%nat = false).
      { apply Nat.leb_gt. cbn [length] in Hlen. lia. }
      rewrite F. cbn [LRU.evictList].
      split; [|split].
      * intros k' v' Hin. apply in_app_or in Hin as [Hin|[[= <- <-]|[]]].
        -- cbn [LRU.lookup]. destruct (K_eq_dec k' k) as [->|].
           ++ exfalso. apply Hfresh. now apply (in_map fst) in Hin.
           ++ now apply Hl.
        -- cbn [LRU.lookup]. destruct (K_eq_dec k k); [reflexivity|contradiction].
      * cbn [map fst]. intros k' [<-|Hin]; apply in_or_app; [right; now left|].
        left. now apply Hk.
      * rewrite length_app. cbn [length]. lia.
    + rewrite !app_nil_r. split; [|split].
      * intros k' v' Hin.
        change (LRU.Peek K_eq_dec k' (snd (LRU.Get K_eq_dec k c)) = Some v').
        rewrite LRUFacts.Peek_Get. now apply Hl.
      * intros k' Hin. apply in_map_iff in Hin as ([k0 v0] & Hfst & Hin).
        cbn in Hfst. subst k0. apply LRUFacts.In_Get in Hin.
        apply Hk. now apply (in_map fst) in Hin.
      * unfold LRU.Get, LRU.Len in *.
        destruct (lookup k (LRU.evictList c)) as [v0|] eqn:E; cbn [snd LRU.evictList];
          [|exact Hn].
        cbn [length]. rewrite <- Hn.
        now apply length_remove_NoDup with (v := v0).
Qed.

Lemma Len_bounded (n : nat) (ops : list (op K V)) :
  (0 < n)%nat -> (LRU.Len (runOps ops (empty n)) <= n)%nat.
Proof.
  intros Hpos. induction ops as [|o ops IH] using rev_ind; [cbn; lia|].
  rewrite runOps_snoc. destruct (order_invariant n ops) as (Hsz & _ & _).
  destruct o as [k v|k]; cbn [CacheTrace.runOp].
  - rewrite <- Hsz at 2. apply LRUFacts.Len_Add; rewrite Hsz; assumption.
  - pose proof (LRUFacts.Len_Get K_eq_dec k (runOps ops (empty n))). lia.
Qed.

(** *** Eviction takes the least recently used entry *)

Lemma lru_eviction (n : nat) (ops : list (op K V)) (k : K) (v : V) :
  (0 < n)%nat ->
  NoDup (addedKeys (ops ++ [OpAdd k v])) ->
  length (addedKeys ops) = n ->
  LRU.Len (runOps (ops ++ [OpAdd k v]) (empty n)) = n
  /\ exists victim,
       In victim (addedKeys ops)
       /\ (forall k', In k' (addedKeys ops) -> k' <> victim ->
                      (lastUse victim ops < lastUse k' ops)%nat)
       /\ LRU.Peek K_eq_dec victim (runOps (ops ++ [OpAdd k v]) (empty n)) = None
       /\ (forall k' v', In (k', v') (addedEntries (ops ++ [OpAdd k v])) ->
                         k' <> victim ->
                         fst (LRU.Get K_eq_dec k' (runOps (ops ++ [OpAdd k v]) (empty n)))
                           = Some v').
Proof.
  intros Hpos Hnd Hfull.
  rewrite addedKeys_app in Hnd. cbn [addedKeys addedEntries map fst] in Hnd.
  assert (Hfresh : ~ In k (addedKeys ops)).
  { intros Hin. apply NoDup_remove_2 in Hnd. rewrite app_nil_r in Hnd. contradiction. }
  apply NoDup_app_remove_r in Hnd.
  destruct (@distinct_adds_kept n ops Hnd) as (Hl & Hk & Hn); [lia|].
  destruct (order_invariant n ops) as (Hsz & Hdist & Hsorted).
  rewrite runOps_snoc, addedEntries_app. cbn [CacheTrace.runOp addedEntries].
  set (c := runOps ops (empty n)) in *.
  assert (E : lookup k (LRU.evictList c) = None).
  { apply LRUFacts.lookup_None. intros Hin. now apply Hfresh, Hk. }
  unfold LRU.Len in Hn.
  assert (F : (LRU.size c <=? length (LRU.evictList c))%nat = true).
  { apply Nat.leb_le. lia. }
  destruct (exists_last (l := LRU.evictList c)) as (l0 & [kv vv] & Hlast).
  { intros Hnil. rewrite Hnil in Hn. cbn in Hn. lia. }
  unfold LRU.Add, LRU.Peek, LRU.Len. rewrite E, F. cbn [LRU.evictList].
  rewrite Hlast in *. rewrite removelast_last.
  rewrite map_app in Hdist, Hsorted, Hk. cbn [map fst] in Hdist, Hsorted, Hk.
  assert (Hvk : kv <> k).
  { intros ->. apply Hfresh, Hk. apply in_or_app. right. now left. }
  assert (Hvl0 : ~ In kv (keys l0)).
  { intros Hin. apply NoDup_remove_2 in Hdist. rewrite app_nil_r in Hdist. contradiction. }
  split.
  - cbn [length]. rewrite length_app in Hn. cbn [length] in Hn. lia.
  - exists kv. split; [|split; [|split]].
    + apply Hk. apply in_or_app. right. now left.
    + intros k' Hin Hne.
      apply (@Sorted_snoc_last K (newer ops) (keys l0) kv Hsorted k').
      apply in_map_iff in Hin as ([k0 v0] & Hfst & Hin). cbn in Hfst. subst k0.
      apply Hl in Hin. rewrite lookup_snoc_other in Hin by exact Hne.
      now apply LRUFacts.lookup_Some_key in Hin.
    + cbn [LRU.lookup]. destruct (K_eq_dec kv k); [contradiction|].
      now apply LRUFacts.lookup_None.
    + intros k' v' Hin Hne. rewrite LRUFacts.fst_Get. unfold LRU.Peek.
      cbn [LRU.evictList LRU.lookup].
      apply in_app_or in Hin as [Hin|[[= <- <-]|[]]].
      * destruct (K_eq_dec k' k) as [->|].
        -- exfalso. apply Hfresh. now apply (in_map fst) in Hin.
        -- apply Hl in Hin. now rewrite lookup_snoc_other in Hin.
      * destruct (K_eq_dec k k); [reflexivity|contradiction].
Qed.
End Order.
End LRUOrder.

(* ================================================================== *)
(** ** The capacity and eviction order of the payload cache *)

Section PayloadCache.
Context {cc : ChainComponent}.
Import CacheTrace.

Local Abbreviation runOps := (CacheTrace.runOps PayloadID_eq_dec).
Local Abbreviation lastUse := (CacheTrace.lastUse (V := iface) PayloadID_eq_dec).

(** C4.  The cache of a backend made by [NewEngineBackend] never holds
    more than 10 entries, whatever requests are served and whatever
    [Add] and [Get] operations are run on it.  When 11 payloads with
    distinct identifiers have been added, with any [Get]s in between, the
    cache holds 10 entries; exactly one of the first ten identifiers is
    gone, it is the one whose last access ([Add] or [Get]) lies furthest
    back, and every other one of the 11 payloads is returned by [Get]. *)
Theorem C4_capacity_ten_lru_eviction :
  forall (mock : MockChain) (e0 : EngineBackend),
    NewEngineBackend mock = Ok e0 ->
    (forall rqs, (LRU.Len (recentPayloads (snd (serveAll rqs e0))) <= 10)%nat)
    /\ (forall ops, (LRU.Len (runOps ops (recentPayloads e0)) <= 10)%nat)
    /\ (forall (ops : list (op PayloadID iface)) (id : PayloadID) (v : iface),
           NoDup (addedKeys (ops ++ [OpAdd id v])) ->
           length (addedKeys (ops ++ [OpAdd id v])) = 11%nat ->
           LRU.Len (runOps (ops ++ [OpAdd id v]) (recentPayloads e0)) = 10%nat
           /\ exists victim,
                In victim (addedKeys ops)
                /\ (forall id', In id' (addedKeys ops) -> id' <> victim ->
                                (lastUse victim ops < lastUse id' ops)%nat)
                /\ LRU.Peek PayloadID_eq_dec victim
                      (runOps (ops ++ [OpAdd id v]) (recentPayloads e0)) = None
                /\ (forall id' v',
                       In (id', v') (addedEntries (ops ++ [OpAdd id v])) ->
                       id' <> victim ->
                       fst (LRU.Get PayloadID_eq_dec id'
                              (runOps (ops ++ [OpAdd id v]) (recentPayloads e0)))
                         = Some v')).
Proof.
  intros mock e0 Hnew.
  split; [intros rqs; now destruct (reachable_invariant rqs Hnew) as (_ & _ & H & _)|].
  apply NewEngineBackend_fresh in Hnew. subst e0. cbn [recentPayloads].
  split; [intros ops; apply LRUOrder.Len_bounded; lia|].
  intros ops id v Hnd Hlen.
  apply LRUOrder.lru_eviction; [lia|exact Hnd|].
  rewrite LRUOrder.addedKeys_app, length_app in Hlen. cbn in Hlen. lia.
Qed.
End PayloadCache.

(** The history [Toy.cacheOps] followed by an eleventh insertion: the entry
    inserted first was read again and stays, the second one goes. *)
Example eviction_follows_access_order :
  let c := CacheTrace.runOps PayloadID_eq_dec
             (Toy.cacheOps ++ [CacheTrace.OpAdd (Toy.id 11) (Toy.stored 11)])
             (recentPayloads Toy.backend0) in
  LRU.Peek PayloadID_eq_dec (Toy.id 2) c = None
  /\ LRU.Peek PayloadID_eq_dec (Toy.id 1) c = Some (Toy.stored 1)
  /\ LRU.Keys c = map Toy.id [11; 1; 10; 9; 8; 7; 6; 5; 4; 3]%Z.
Proof. vm_compute. repeat split. Qed.

(** The history [Toy.cacheOps] followed by the eleventh insertion. *)
Lemma C4_witness :
  LRU.Len (CacheTrace.runOps PayloadID_eq_dec
             (Toy.cacheOps ++ [CacheTrace.OpAdd (Toy.id 11) (Toy.stored 11)])
             (recentPayloads Toy.backend0)) = 10%nat
  /\ exists victim,
       In victim (CacheTrace.addedKeys Toy.cacheOps)
       /\ LRU.Peek PayloadID_eq_dec victim
            (CacheTrace.runOps PayloadID_eq_dec
               (Toy.cacheOps ++ [CacheTrace.OpAdd (Toy.id 11) (Toy.stored 11)])
               (recentPayloads Toy.backend0)) = None.
Proof.
  assert (Hnd : NoDup (CacheTrace.addedKeys
                         (Toy.cacheOps ++ [CacheTrace.OpAdd (Toy.id 11) (Toy.stored 11)]))).
  { exact (eq_ind _ (@NoDup PayloadID)
             (NoDup_nodup PayloadID_eq_dec
                (CacheTrace.addedKeys
                   (Toy.cacheOps ++ [CacheTrace.OpAdd (Toy.id 11) (Toy.stored 11)])))
             _ eq_refl). }
  destruct (proj2 (proj2 (@C4_capacity_ten_lru_eviction Toy.component Toy.chain0
                            Toy.backend0 eq_refl))
              Toy.cacheOps (Toy.id 11) (Toy.stored 11) Hnd eq_refl)
    as (Hlen & victim & Hin & _ & Hgone & _).
  split; [exact Hlen|].
  exists victim. split; [exact Hin|exact Hgone].
Defined.

(** On the toy chain: a prepare request on genesis succeeds and carries an
    identifier. *)
Lemma C6_witness :
  exists r id,
    fst (fst (@ForkchoiceUpdatedV1 Toy.component (Some (Toy.heads 7)) (Some (Toy.attrs 1000))
                Toy.backend0)) = Ok r
    /\ fcPayloadID r = Some id
    /\ Status (fcStatus r) = ExecutionValid.
Proof.
  destruct (@C6_payload_id_iff_prepared Toy.component Toy.backend0 (Toy.heads 7)
              (Some (Toy.attrs 1000))) as [Hvalid Hiff].
  destruct (proj2 Hiff) as (r & id & Hok & Hid).
  - exists (Toy.attrs 1000), (Toy.payload 7 1000), (Toy.payload 7 1000).
    repeat split.
  - exists r, id. split; [exact Hok|]. split; [exact Hid|].
    apply Hvalid. exact Hok.
Defined.

(* ================================================================== *)
(** ** Execution of a submitted payload *)

Section NewPayloadExecution.
Context {cc : ChainComponent}.
Local Open Scope string_scope.

(** The path of [NewPayloadV1] past the three gates, up to the call of
    [ProcessPayload]. *)
Lemma NewPayloadV1_reaches_execution (e : EngineBackend) (payload : ExecutionPayloadV1)
    (parent : Header) (threshold : Z) :
  computeBlockHash payload = BlockHash payload ->
  GetHeaderByHash (mockChain e) (ParentHash payload) = Some parent ->
  TerminalTotalDifficulty (mockChain e) = Some threshold ->
  (threshold <= Difficulty parent)%Z ->
  NewPayloadV1 (Some payload) e =
    match ProcessPayload (mockChain e) payload with
    | (inl _, ch) =>
        (Ok (status ExecutionValid),
         {| mockChain := ch; payloadIdCounter := payloadIdCounter e;
            recentPayloads := recentPayloads e |},
         [CallGetHeaderByHash (ParentHash payload); CallProcessPayload payload;
          Log Info "Executed payload"])
    | (inr err, ch) =>
        (Err (chainError err),
         {| mockChain := ch; payloadIdCounter := payloadIdCounter e;
            recentPayloads := recentPayloads e |},
         [CallGetHeaderByHash (ParentHash payload); CallProcessPayload payload;
          Log Error "Failed to execute payload"])
    end.
Proof.
  intros Hhash Hparent Httd Hge.
  unfold NewPayloadV1, ValidateHash.
  apply Z.eqb_eq in Hhash. rewrite Hhash. cbn [negb].
  unfold bind, getHeaderByHash, cmpTerminalTotalDifficulty, processPayload.
  rewrite Hparent, Httd.
  apply Cmp_nonneg in Hge. rewrite Hge.
  destruct (ProcessPayload (mockChain e) payload) as [[bl|err] ch]; reflexivity.
Qed.

(** X1.  A payload with a consistent block hash, whose parent is known and
    has reached the terminal total difficulty, is handed to
    [ProcessPayload] exactly once; when that returns a block the answer is
    VALID, the chain is the one [ProcessPayload] left, and the counter and
    the cache are untouched. *)
Theorem X1_new_payload_executed_valid :
  forall (e : EngineBackend) (payload : ExecutionPayloadV1) (parent : Header)
         (threshold : Z) (bl : Block) (ch : MockChain),
    computeBlockHash payload = BlockHash payload ->
    GetHeaderByHash (mockChain e) (ParentHash payload) = Some parent ->
    TerminalTotalDifficulty (mockChain e) = Some threshold ->
    (threshold <= Difficulty parent)%Z ->
    ProcessPayload (mockChain e) payload = (inl bl, ch) ->
    NewPayloadV1 (Some payload) e =
      (Ok (status ExecutionValid),
       {| mockChain := ch; payloadIdCounter := payloadIdCounter e;
          recentPayloads := recentPayloads e |},
       [CallGetHeaderByHash (ParentHash payload); CallProcessPayload payload;
        Log Info "Executed payload"]).
Proof.
  intros e payload parent threshold bl ch Hhash Hparent Httd Hge Hrun.
  rewrite (NewPayloadV1_reaches_execution e payload Hhash Hparent Httd Hge), Hrun.
  reflexivity.
Qed.

(** X2.  On the same path, an error of [ProcessPayload] is returned to the
    caller as it is, with no status; the chain is whatever the failed
    execution left behind, and the counter and the cache are untouched. *)
Theorem X2_new_payload_execution_error_propagates :
  forall (e : EngineBackend) (payload : ExecutionPayloadV1) (parent : Header)
         (threshold : Z) (err : ChainError) (ch : MockChain),
    computeBlockHash payload = BlockHash payload ->
    GetHeaderByHash (mockChain e) (ParentHash payload) = Some parent ->
    TerminalTotalDifficulty (mockChain e) = Some threshold ->
    (threshold <= Difficulty parent)%Z ->
    ProcessPayload (mockChain e) payload = (inr err, ch) ->
    NewPayloadV1 (Some payload) e =
      (Err (chainError err),
       {| mockChain := ch; payloadIdCounter := payloadIdCounter e;
          recentPayloads := recentPayloads e |},
       [CallGetHeaderByHash (ParentHash payload); CallProcessPayload payload;
        Log Error "Failed to execute payload"]).
Proof.
  intros e payload parent threshold err ch Hhash Hparent Httd Hge Hrun.
  rewrite (NewPayloadV1_reaches_execution e payload Hhash Hparent Httd Hge), Hrun.
  reflexivity.
Qed.

(** X3.  When the genesis configuration has no terminal total difficulty,
    a payload with a consistent block hash and a known parent makes the
    handler panic at the comparison: nothing is executed, the backend
    record is unchanged, and only the header lookup has happened. *)
Theorem X3_new_payload_unset_ttd_panics :
  forall (e : EngineBackend) (payload : ExecutionPayloadV1) (parent : Header),
    computeBlockHash payload = BlockHash payload ->
    GetHeaderByHash (mockChain e) (ParentHash payload) = Some parent ->
    TerminalTotalDifficulty (mockChain e) = None ->
    NewPayloadV1 (Some payload) e =
      (Panic, e, [CallGetHeaderByHash (ParentHash payload)]).
Proof.
  intros e payload parent Hhash Hparent Httd.
  unfold NewPayloadV1, ValidateHash.
  apply Z.eqb_eq in Hhash. rewrite Hhash. cbn [negb].
  unfold bind, getHeaderByHash, cmpTerminalTotalDifficulty.
  rewrite Hparent, Httd. reflexivity.
Qed.

(** X4.  Whatever the payload and the backend: a status returned by
    [NewPayloadV1] is one of VALID, SYNCING, INVALID_BLOCK_HASH and
    INVALID_TERMINAL_BLOCK, never INVALID, and it carries neither a latest
    valid hash nor a validation error; an error returned is an error of
    [ProcessPayload] on that payload, unchanged. *)
Theorem X4_new_payload_results :
  forall (e : EngineBackend) (payload : option ExecutionPayloadV1),
    (forall r, fst (fst (NewPayloadV1 payload e)) = Ok r ->
       Status r <> ExecutionInvalid
       /\ LatestValidHash r = None
       /\ ValidationError r = None)
    /\ (forall err, fst (fst (NewPayloadV1 payload e)) = Err err ->
          exists p ce,
            payload = Some p
            /\ fst (ProcessPayload (mockChain e) p) = inr ce
            /\ err = chainError ce).
Proof.
  intros e [payload|]; [|split; intros x H; discriminate H].
  unfold NewPayloadV1.
  destruct (negb (ValidateHash payload)).
  { split; [intros r [= <-]; repeat split; discriminate|intros err [=]]. }
  unfold bind, getHeaderByHash.
  destruct (GetHeaderByHash (mockChain e) (ParentHash payload)) as [parent|].
  2:{ split; [intros r [= <-]; repeat split; discriminate|intros err [=]]. }
  unfold cmpTerminalTotalDifficulty.
  destruct (TerminalTotalDifficulty (mockChain e)) as [threshold|].
  2:{ split; intros x H; discriminate H. }
  destruct (Cmp (Difficulty parent) threshold <? 0)%Z.
  { split; [intros r [= <-]; repeat split; discriminate|intros err [=]]. }
  unfold processPayload.
  destruct (ProcessPayload (mockChain e) payload) as [[bl|ce] ch] eqn:Hrun; cbn [fst].
  - split; [intros r [= <-]; repeat split; discriminate|intros err [=]].
  - split; [intros r [=]|intros err [= <-]]. exists payload, ce.
    rewrite Hrun. repeat split.
Qed.

(** X5.  [NewPayloadV1] never touches the identifier counter or the payload
    cache, on any path; and the chain it leaves is either the one it found
    or the one [ProcessPayload] returned for the payload. *)
Theorem X5_new_payload_frame :
  forall (e : EngineBackend) (payload : option ExecutionPayloadV1),
    payloadIdCounter (snd (fst (NewPayloadV1 payload e))) = payloadIdCounter e
    /\ recentPayloads (snd (fst (NewPayloadV1 payload e))) = recentPayloads e
    /\ (mockChain (snd (fst (NewPayloadV1 payload e))) = mockChain e
        \/ exists p, payload = Some p
                     /\ mockChain (snd (fst (NewPayloadV1 payload e))) =
                          snd (ProcessPayload (mockChain e) p)).
Proof.
  intros e payload.
  destruct (NewPayloadV1_backend e payload) as [Hc Hr].
  split; [exact Hc|]. split; [exact Hr|].
  destruct payload as [payload|]; [|now left].
  unfold NewPayloadV1.
  destruct (negb (ValidateHash payload)); [now left|].
  unfold bind, getHeaderByHash.
  destruct (GetHeaderByHash (mockChain e) (ParentHash payload)) as [parent|]; [|now left].
  unfold cmpTerminalTotalDifficulty.
  destruct (TerminalTotalDifficulty (mockChain e)) as [threshold|]; [|now left].
  destruct (Cmp (Difficulty parent) threshold <? 0)%Z; [now left|].
  unfold processPayload. right. exists payload. split; [reflexivity|].
  destruct (ProcessPayload (mockChain e) payload) as [[bl|ce] ch]; reflexivity.
Qed.
End NewPayloadExecution.

(* ================================================================== *)
(** ** How long an entry stays in the cache *)

Module LRUWindow.
Section Window.
Variables K V : Type.
Variable K_eq_dec : forall a b : K, {a = b} + {a <> b}.

Local Abbreviation lookup := (LRU.lookup K_eq_dec).
Local Abbreviation remove := (LRU.remove K_eq_dec).
Local Abbreviation Get := (LRU.Get K_eq_dec).
Local Abbreviation Add := (LRU.Add K_eq_dec).

(** [Add] puts its entry in front. *)
Lemma Add_front (k : K) (v : V) (c : LRU.Cache K V) :
  exists rest, LRU.evictList (Add k v c) = (k, v) :: rest
               /\ ~ In k (map fst rest).
Proof.
  unfold LRU.Add.
  destruct (lookup k (LRU.evictList c)) as [v0|] eqn:E; cbn [LRU.evictList].
  - eexists. split; [reflexivity|].
    apply (proj1 (LRUFacts.lookup_None K_eq_dec _ _)), LRUFacts.lookup_remove_same.
  - apply LRUFacts.lookup_None in E.
    destruct (LRU.size c <=? length (LRU.evictList c))%nat; cbn [LRU.evictList];
      eexists; (split; [reflexivity|]); [|exact E].
    intros Hin. apply E.
    apply in_map_iff in Hin as (x & Hx & Hin).
    apply LRUFacts.In_removelast in Hin.
    apply in_map_iff. now exists x.
Qed.

(** A [Get] of the entry in front changes nothing. *)
Lemma Get_front (k : K) (v : V) (c : LRU.Cache K V) (rest : list (K * V)) :
  LRU.evictList c = (k, v) :: rest ->
  ~ In k (map fst rest) ->
  Get k c = (Some v, c).
Proof.
  intros Hl Hnin. unfold LRU.Get. rewrite Hl. cbn [LRU.lookup LRU.remove].
  destruct (K_eq_dec k k); [|contradiction].
  rewrite LRUFacts.remove_absent by exact Hnin.
  rewrite <- Hl. destruct c; reflexivity.
Qed.

Lemma Get_after_Add (k : K) (v : V) (c : LRU.Cache K V) :
  Get k (Add k v c) = (Some v, Add k v c).
Proof.
  destruct (Add_front k v c) as (rest & Hl & Hnin).
  now apply Get_front with (rest := rest).
Qed.

Lemma Get_after_Get (k : K) (v : V) (c : LRU.Cache K V) :
  fst (Get k c) = Some v ->
  Get k (snd (Get k c)) = (Some v, snd (Get k c)).
Proof.
  unfold LRU.Get at 1 3 4.
  destruct (lookup k (LRU.evictList c)) as [v0|] eqn:E; [|discriminate].
  cbn [fst snd]. intros [= ->].
  apply Get_front with (rest := remove k (LRU.evictList c)); [reflexivity|].
  apply (proj1 (LRUFacts.lookup_None K_eq_dec _ _)), LRUFacts.lookup_remove_same.
Qed.

(** *** The position of an entry *)

Lemma lookup_firstn_all (k : K) (v : V) (m : nat) (l : list (K * V)) :
  lookup k (firstn m l) = Some v -> lookup k l = Some v.
Proof.
  revert m. induction l as [|[k0 v0] l IH]; intros [|m]; cbn [firstn LRU.lookup];
    try discriminate.
  destruct (K_eq_dec k k0); [auto|apply IH].
Qed.

Lemma lookup_firstn_S (k : K) (v : V) (m : nat) (l : list (K * V)) :
  lookup k (firstn m l) = Some v -> lookup k (firstn (S m) l) = Some v.
Proof.
  revert m. induction l as [|[k0 v0] l IH]; intros [|m]; cbn [firstn LRU.lookup];
    try discriminate.
  destruct (K_eq_dec k k0); [auto|]. intros H. apply IH in H. exact H.
Qed.

Lemma lookup_firstn_remove (k k' : K) (v : V) (m : nat) (l : list (K * V)) :
  k <> k' ->
  lookup k (firstn m l) = Some v ->
  lookup k (firstn m (remove k' l)) = Some v.
Proof.
  intros Hne. revert m.
  induction l as [|[k0 v0] l IH]; intros [|m]; cbn [firstn LRU.lookup LRU.remove];
    try discriminate.
  destruct (K_eq_dec k k0) as [->|Hk0].
  - destruct (K_eq_dec k' k0) as [->|]; [contradiction|].
    cbn [firstn LRU.lookup]. destruct (K_eq_dec k0 k0); [auto|contradiction].
  - intros H. destruct (K_eq_dec k' k0) as [->|].
    + apply lookup_firstn_S. now apply IH.
    + cbn [firstn LRU.lookup]. destruct (K_eq_dec k k0); [contradiction|now apply IH].
Qed.

Lemma firstn_removelast (A : Type) (m : nat) (l : list A) :
  (m < length l)%nat -> firstn m (removelast l) = firstn m l.
Proof.
  revert m. induction l as [|a l IH]; intros m Hm; [cbn in Hm; lia|].
  destruct l as [|b l].
  - cbn in Hm. assert (m = 0%nat) by lia. subst. reflexivity.
  - change (removelast (a :: b :: l)) with (a :: removelast (b :: l)).
    destruct m as [|m]; [reflexivity|].
    cbn [firstn]. f_equal. apply IH. cbn [length] in *. lia.
Qed.

(** An entry among the first [m] of a cache with room for more than [m] is
    among the first [m + 1] after a [Get] of any key, and after an [Add] of
    any other key. *)
Lemma window_Get (k k' : K) (v : V) (m : nat) (c : LRU.Cache K V) :
  lookup k (firstn m (LRU.evictList c)) = Some v ->
  lookup k (firstn (S m) (LRU.evictList (snd (Get k' c)))) = Some v.
Proof.
  intros H. unfold LRU.Get.
  destruct (lookup k' (LRU.evictList c)) as [v0|] eqn:E; cbn [snd LRU.evictList].
  - cbn [firstn LRU.lookup]. destruct (K_eq_dec k k') as [->|Hne].
    + apply lookup_firstn_all in H. congruence.
    + now apply lookup_firstn_remove.
  - now apply lookup_firstn_S.
Qed.

Lemma window_Add (k k' : K) (v v' : V) (m : nat) (c : LRU.Cache K V) :
  k <> k' ->
  (m < LRU.size c)%nat ->
  lookup k (firstn m (LRU.evictList c)) = Some v ->
  lookup k (firstn (S m) (LRU.evictList (Add k' v' c))) = Some v.
Proof.
  intros Hne Hm H. unfold LRU.Add.
  destruct (lookup k' (LRU.evictList c)) as [v0|] eqn:E; cbn [LRU.evictList].
  - cbn [firstn LRU.lookup]. destruct (K_eq_dec k k'); [contradiction|].
    now apply lookup_firstn_remove.
  - destruct (LRU.size c <=? length (LRU.evictList c))%nat eqn:F; cbn [LRU.evictList];
      cbn [firstn LRU.lookup]; (destruct (K_eq_dec k k'); [contradiction|]); [|exact H].
    apply Nat.leb_le in F. rewrite firstn_removelast by lia. exact H.
Qed.
End Window.
End LRUWindow.

(* ================================================================== *)
(** ** Retrieval of prepared payloads *)

Section Retrieval.
Context {cc : ChainComponent}.
Local Open Scope string_scope.

Local Abbreviation Peek := (LRU.Peek PayloadID_eq_dec).
Local Abbreviation Get := (LRU.Get PayloadID_eq_dec).
Local Abbreviation Add := (LRU.Add PayloadID_eq_dec).

(** The answer of [GetPayloadV1] is read off the cache entry alone. *)
Lemma GetPayloadV1_answer (e : EngineBackend) (id : PayloadID) :
  fst (fst (GetPayloadV1 id e)) =
    match Peek id (recentPayloads e) with
    | None => Err (rpcError "unknown payload %d" id UnavailablePayload)
    | Some (IfacePayloadV1 p) => Ok p
    | Some (IfaceOther _) => Panic
    end.
Proof.
  destruct (Peek id (recentPayloads e)) as [v|] eqn:E.
  - rewrite (GetPayloadV1_hit _ _ E). reflexivity.
  - rewrite (GetPayloadV1_miss _ _ E). reflexivity.
Qed.

(** X6.  A payload prepared by a successful [ForkchoiceUpdatedV1] can be
    fetched at once: [GetPayloadV1] with the identifier of the result
    returns the wire payload that [BlockToPayload] made of the assembled
    block, and leaves the backend exactly as the prepare request left it. *)
Theorem X6_prepared_payload_is_retrievable :
  forall (e e' : EngineBackend) (heads : ForkchoiceStateV1) (a : PayloadAttributesV1)
         (r : ForkchoiceUpdatedResult) (ev : list Event),
    ForkchoiceUpdatedV1 (Some heads) (Some a) e = (Ok r, e', ev) ->
    exists id bl p,
      fcPayloadID r = Some id
      /\ fst (AddNewBlock (mockChain e) (HeadBlockHash heads) (SuggestedFeeRecipient a)
                (Timestamp a) (GasLimit (mockChain e)) {| createTxs := fun _ => [] |}
                (PrevRandao a) [] [] false) = inl bl
      /\ BlockToPayload bl = inl p
      /\ GetPayloadV1 id e' =
           (Ok p, e', [Log Info "Consensus client retrieved prepared payload"]).
Proof.
  intros e e' heads a r ev H.
  rewrite ForkchoiceUpdatedV1_prepare in H. cbv zeta in H.
  destruct AddNewBlock as [[bl|err] ch] eqn:Ha; [|discriminate].
  destruct (BlockToPayload bl) as [p|err] eqn:Hp; [|discriminate].
  injection H as <- <- <-.
  exists (PutUint64 (AddUint64 (payloadIdCounter e) 1)), bl, p.
  split; [reflexivity|]. split; [reflexivity|]. split; [exact Hp|].
  erewrite GetPayloadV1_hit
    by (cbn [recentPayloads]; apply LRUFacts.Peek_Add_same).
  cbn [recentPayloads mockChain payloadIdCounter].
  rewrite LRUWindow.Get_after_Add. reflexivity.
Qed.

(** X7.  Fetching does not use a payload up.  After a successful
    [GetPayloadV1], the same request again returns the same payload and
    changes nothing further; and a request for any other identifier is
    answered as it would have been before. *)
Theorem X7_get_payload_is_repeatable :
  forall (e : EngineBackend) (id : PayloadID) (p : ExecutionPayloadV1),
    fst (fst (GetPayloadV1 id e)) = Ok p ->
    GetPayloadV1 id (snd (fst (GetPayloadV1 id e))) =
      (Ok p, snd (fst (GetPayloadV1 id e)),
       [Log Info "Consensus client retrieved prepared payload"])
    /\ (forall id',
          fst (fst (GetPayloadV1 id' (snd (fst (GetPayloadV1 id e))))) =
          fst (fst (GetPayloadV1 id' e))).
Proof.
  intros e id p Hok.
  rewrite GetPayloadV1_answer in Hok.
  destruct (Peek id (recentPayloads e)) as [[q|ty]|] eqn:E; try discriminate.
  injection Hok as ->.
  rewrite GetPayloadV1_backend.
  split.
  - erewrite GetPayloadV1_hit
      by (cbn [recentPayloads]; rewrite LRUFacts.Peek_Get; exact E).
    cbn [recentPayloads mockChain payloadIdCounter].
    rewrite (LRUWindow.Get_after_Get PayloadID_eq_dec id (recentPayloads e)
               (v := IfacePayloadV1 p))
      by (rewrite LRUFacts.fst_Get; exact E).
    reflexivity.
  - intros id'. rewrite !GetPayloadV1_answer. cbn [recentPayloads].
    rewrite LRUFacts.Peek_Get. reflexivity.
Qed.

(** X8.  [GetPayloadV1] never calls into the chain component and never
    touches the chain or the identifier counter; it emits one log line; it
    keeps every entry of the cache; and the only error it returns is the
    [rpcError] with the code [UnavailablePayload], in which case the backend
    is exactly as before. *)
Theorem X8_get_payload_frame :
  forall (e : EngineBackend) (id : PayloadID),
    mockChain (snd (fst (GetPayloadV1 id e))) = mockChain e
    /\ payloadIdCounter (snd (fst (GetPayloadV1 id e))) = payloadIdCounter e
    /\ (forall k, Peek k (recentPayloads (snd (fst (GetPayloadV1 id e)))) =
                  Peek k (recentPayloads e))
    /\ (exists lvl msg, snd (GetPayloadV1 id e) = [Log lvl msg])
    /\ (forall err, fst (fst (GetPayloadV1 id e)) = Err err ->
          err = rpcError "unknown payload %d" id UnavailablePayload
          /\ snd (fst (GetPayloadV1 id e)) = e).
Proof.
  intros e id. rewrite GetPayloadV1_backend. cbn [mockChain payloadIdCounter recentPayloads].
  split; [reflexivity|]. split; [reflexivity|].
  split; [intros k; apply LRUFacts.Peek_Get|].
  destruct (Peek id (recentPayloads e)) as [v|] eqn:E.
  - rewrite (GetPayloadV1_hit _ _ E). cbn [fst snd].
    split; [eauto|]. intros err Herr. destruct v; discriminate Herr.
  - rewrite (GetPayloadV1_miss _ _ E). cbn [fst snd].
    split; [eauto|]. intros err [= <-].
    split; [reflexivity|].
    rewrite (LRUFacts.Get_miss _ _ _ E). destruct e; reflexivity.
Qed.

(** X9.  An error returned by [ForkchoiceUpdatedV1] is always an error of the
    chain component handed up unchanged: the error of [AddNewBlock], or,
    when a block was assembled, the error of [BlockToPayload] on that
    block.  It occurs only with attributes present; the engine adds no
    error of its own. *)
Theorem X9_forkchoice_error_provenance :
  forall (e : EngineBackend) (heads : option ForkchoiceStateV1)
         (attributes : option PayloadAttributesV1) (err : error),
    fst (fst (ForkchoiceUpdatedV1 heads attributes e)) = Err err ->
    exists h a ce,
      heads = Some h /\ attributes = Some a /\ err = chainError ce
      /\ (fst (AddNewBlock (mockChain e) (HeadBlockHash h) (SuggestedFeeRecipient a)
                 (Timestamp a) (GasLimit (mockChain e)) {| createTxs := fun _ => [] |}
                 (PrevRandao a) [] [] false) = inr ce
          \/ exists bl,
               fst (AddNewBlock (mockChain e) (HeadBlockHash h) (SuggestedFeeRecipient a)
                      (Timestamp a) (GasLimit (mockChain e)) {| createTxs := fun _ => [] |}
                      (PrevRandao a) [] [] false) = inl bl
               /\ BlockToPayload bl = inr ce).
Proof.
  intros e [h|] [a|] err H; try discriminate H.
  rewrite ForkchoiceUpdatedV1_prepare in H. cbv zeta in H.
  destruct AddNewBlock as [[bl|ce] ch] eqn:Ha.
  - destruct (BlockToPayload bl) as [p|ce] eqn:Hp; [discriminate|].
    injection H as <-. exists h, a, ce. repeat split. right. exists bl.
    rewrite Ha. now split.
  - injection H as <-. exists h, a, ce. repeat split. left. now rewrite Ha.
Qed.

(** X10.  Of the forkchoice state only the head block hash matters: two
    calls whose states agree on it return the same result and leave the
    same backend, whatever their safe and finalized hashes. *)
Theorem X10_forkchoice_uses_head_only :
  forall (e : EngineBackend) (h h' : ForkchoiceStateV1)
         (attributes : option PayloadAttributesV1),
    HeadBlockHash h = HeadBlockHash h' ->
    fst (ForkchoiceUpdatedV1 (Some h) attributes e) =
    fst (ForkchoiceUpdatedV1 (Some h') attributes e).
Proof.
  intros e h h' [a|] Hhead.
  - rewrite !ForkchoiceUpdatedV1_prepare. cbv zeta. rewrite Hhead.
    destruct AddNewBlock as [[bl|ce] ch]; [|reflexivity].
    destruct (BlockToPayload bl); reflexivity.
  - rewrite !ForkchoiceUpdatedV1_no_attributes. cbn [fst]. rewrite Hhead. reflexivity.
Qed.
End Retrieval.

(* ================================================================== *)
(** ** The counter behind the identifiers *)

Section Counter.
Context {cc : ChainComponent}.
Local Open Scope Z_scope.

Lemma byte_of_range (x : Z) : 0 <= byte_of x < 256.
Proof.
  unfold byte_of. change 255 with (Z.ones 8). rewrite Z.land_ones by lia.
  apply Z.mod_pos_bound. lia.
Qed.

(** X11.  The identifier encoding.  [PutUint64] fills exactly eight bytes,
    each between 0 and 255, and reading them back as a big-endian number
    gives the 64-bit value again; so distinct counter values have distinct
    identifiers. *)
Theorem X11_payload_id_encoding_round_trip :
  forall v w : Z,
    0 <= v < uint64_modulus ->
    0 <= w < uint64_modulus ->
    length (PutUint64 v) = 8%nat
    /\ Forall (fun b => 0 <= b < 256) (PutUint64 v)
    /\ Uint64 (PutUint64 v) = v
    /\ (PutUint64 v = PutUint64 w -> v = w).
Proof.
  intros v w Hv Hw.
  split; [reflexivity|].
  split; [unfold PutUint64; repeat constructor; apply byte_of_range|].
  split; [now apply Uint64_PutUint64|].
  intros Heq. rewrite <- (Uint64_PutUint64 Hv), <- (Uint64_PutUint64 Hw).
  now rewrite Heq.
Qed.

(** One request moves the counter by one if it is a prepare request and
    leaves it alone otherwise. *)
Lemma serve_counter_cases (rq : Request) (e : EngineBackend) :
  (prepareCount [rq] = 1
   /\ payloadIdCounter (snd (fst (serve rq e))) = AddUint64 (payloadIdCounter e) 1)
  \/ (prepareCount [rq] = 0
      /\ payloadIdCounter (snd (fst (serve rq e))) = payloadIdCounter e).
Proof.
  destruct rq as [id|payload|[heads|] [a|]]; cbn [serve prepareCount].
  - right. split; [reflexivity|].
    pose proof (GetPayloadV1_backend e id) as Hb.
    destruct (GetPayloadV1 id e) as [[r e1] ev1]. cbn [fst snd] in *.
    subst e1. reflexivity.
  - right. split; [reflexivity|].
    pose proof (NewPayloadV1_backend e payload) as [Hc _].
    destruct (NewPayloadV1 payload e) as [[r e1] ev1]. exact Hc.
  - left. split; [reflexivity|].
    rewrite ForkchoiceUpdatedV1_prepare. cbv zeta.
    destruct AddNewBlock as [[bl|err] ch]; [|reflexivity].
    destruct (BlockToPayload bl); reflexivity.
  - right. split; reflexivity.
  - right. split; reflexivity.
  - right. split; reflexivity.
Qed.

Lemma serveAll_counter (rqs : list Request) :
  forall e : EngineBackend,
    0 <= payloadIdCounter e < uint64_modulus ->
    payloadIdCounter (snd (serveAll rqs e)) =
      (payloadIdCounter e + prepareCount rqs) mod uint64_modulus.
Proof.
  induction rqs as [|rq rest IH]; intros e Hc.
  - cbn. rewrite Z.add_0_r. symmetry. now apply Z.mod_small.
  - rewrite serveAll_cons, prepareCount_cons. cbn [snd].
    destruct (serve_counter_cases rq e) as [[H1 Hs]|[H0 Hs]].
    + rewrite IH by (rewrite Hs; apply AddUint64_range).
      rewrite Hs, H1. unfold AddUint64. rewrite Zplus_mod_idemp_l.
      f_equal. lia.
    + rewrite IH by (rewrite Hs; exact Hc). rewrite Hs, H0. f_equal.
Qed.

Lemma serveAll_counter_idle (rqs : list Request) :
  forall e : EngineBackend,
    prepareCount rqs = 0 ->
    payloadIdCounter (snd (serveAll rqs e)) = payloadIdCounter e.
Proof.
  induction rqs as [|rq rest IH]; intros e Hz; [reflexivity|].
  rewrite serveAll_cons. cbn [snd].
  rewrite prepareCount_cons in Hz.
  pose proof (prepareCount_nonneg rest) as Hrest.
  pose proof (prepareCount_nonneg [rq]) as Hone.
  destruct (serve_counter_cases rq e) as [[H1 Hs]|[H0 Hs]]; [lia|].
  rewrite IH by lia. exact Hs.
Qed.

(** X12.  On a backend made by [NewEngineBackend], after any sequence of
    requests the counter is the number of prepare requests served so far,
    modulo 2^64: failed prepare requests count, requests of other kinds and
    requests that panic on a nil argument do not. *)
Theorem X12_counter_counts_prepare_requests :
  forall (mock : MockChain) (e0 : EngineBackend) (rqs : list Request),
    NewEngineBackend mock = Ok e0 ->
    payloadIdCounter (snd (serveAll rqs e0)) = prepareCount rqs mod uint64_modulus.
Proof.
  intros mock e0 rqs Hnew. apply NewEngineBackend_fresh in Hnew. subst e0.
  rewrite serveAll_counter by (cbn; unfold uint64_modulus; lia).
  reflexivity.
Qed.

(** X13.  Two successful prepare requests with no other prepare request
    between them return consecutive identifiers: read as big-endian numbers
    the second is the first plus one modulo 2^64, and the two identifiers
    differ. *)
Theorem X13_consecutive_prepares_consecutive_ids :
  forall (e e1 e2 : EngineBackend) (h1 h2 : ForkchoiceStateV1)
         (a1 a2 : PayloadAttributesV1) (r1 r2 : ForkchoiceUpdatedResult)
         (ev1 ev2 : list Event) (between : list Request) (id1 id2 : PayloadID),
    ForkchoiceUpdatedV1 (Some h1) (Some a1) e = (Ok r1, e1, ev1) ->
    prepareCount between = 0 ->
    ForkchoiceUpdatedV1 (Some h2) (Some a2) (snd (serveAll between e1)) = (Ok r2, e2, ev2) ->
    fcPayloadID r1 = Some id1 ->
    fcPayloadID r2 = Some id2 ->
    Uint64 id2 = (Uint64 id1 + 1) mod uint64_modulus
    /\ id1 <> id2.
Proof.
  intros e e1 e2 h1 h2 a1 a2 r1 r2 ev1 ev2 between id1 id2 H1 Hidle H2 Hid1 Hid2.
  pose proof (serveAll_counter_idle between e1 Hidle) as Hc.
  rewrite ForkchoiceUpdatedV1_prepare in H1, H2. cbv zeta in H1, H2.
  rewrite Hc in H2.
  destruct (AddNewBlock (mockChain e)) as [[bl1|err1] ch1]; [|discriminate].
  destruct (BlockToPayload bl1); [|discriminate].
  injection H1 as <- <- <-.
  destruct (AddNewBlock (mockChain (snd (serveAll between _)))) as [[bl2|err2] ch2];
    [|discriminate].
  destruct (BlockToPayload bl2); [|discriminate].
  injection H2 as <- <- <-.
  cbn [fcPayloadID payloadIdCounter] in *.
  injection Hid1 as <-. injection Hid2 as <-.
  pose proof (AddUint64_range (payloadIdCounter e) 1) as Hr1.
  pose proof (AddUint64_range (AddUint64 (payloadIdCounter e) 1) 1) as Hr2.
  rewrite !Uint64_PutUint64 by assumption.
  split; [reflexivity|].
  intros Heq. apply (f_equal Uint64) in Heq.
  rewrite !Uint64_PutUint64 in Heq by assumption.
  unfold AddUint64 at 2 in Heq.
  set (c := AddUint64 (payloadIdCounter e) 1) in *.
  unfold uint64_modulus in *.
  destruct (Z.eq_dec c (2 ^ 64 - 1)) as [->|Hne].
  - change ((2 ^ 64 - 1 + 1) mod 2 ^ 64) with 0 in Heq. lia.
  - rewrite Z.mod_small in Heq by lia. lia.
Qed.
End Counter.

(* ================================================================== *)
(** ** How long a prepared payload stays available *)

Section Availability.
Context {cc : ChainComponent}.
Local Open Scope Z_scope.

Local Abbreviation lookup := (LRU.lookup PayloadID_eq_dec).
Local Abbreviation entries e := (LRU.evictList (recentPayloads e)).

Lemma serve_size (rq : Request) (e : EngineBackend) :
  LRU.size (recentPayloads (snd (fst (serve rq e)))) = LRU.size (recentPayloads e).
Proof.
  destruct (serve_cache rq e) as [H|[(k & H)|(k & bl & p & _ & _ & H)]]; rewrite H.
  - reflexivity.
  - apply LRUFacts.size_Get.
  - apply LRUFacts.size_Add.
Qed.

(** One request pushes an entry back by at most one place, unless the
    request stores a payload under the same identifier. *)
Lemma serve_window (rq : Request) (e : EngineBackend) (id : PayloadID) (v : iface)
    (m : nat) :
  (m < LRU.size (recentPayloads e))%nat ->
  lookup id (firstn m (entries e)) = Some v ->
  issuedID (fst (fst (serve rq e))) <> Some id ->
  lookup id (firstn (S m) (entries (snd (fst (serve rq e))))) = Some v.
Proof.
  intros Hm H Hfresh.
  destruct (serve_cache rq e) as [Hc|[(k & Hc)|(k & bl & p & _ & Hid & Hc)]]; rewrite Hc.
  - now apply LRUWindow.lookup_firstn_S.
  - now apply LRUWindow.window_Get.
  - apply LRUWindow.window_Add; [|exact Hm|exact H].
    intros ->. now apply Hfresh.
Qed.

Lemma serveAll_window (id : PayloadID) (v : iface) (cid : Z) (rqs : list Request) :
  forall (e : EngineBackend) (m : nat) (d : Z),
    id = PutUint64 cid ->
    0 <= cid < uint64_modulus ->
    LRU.size (recentPayloads e) = 10%nat ->
    (m + length rqs <= 10)%nat ->
    lookup id (firstn m (entries e)) = Some v ->
    0 <= d ->
    d + Z.of_nat (length rqs) < uint64_modulus ->
    payloadIdCounter e = (cid + d) mod uint64_modulus ->
    lookup id (firstn (m + length rqs) (entries (snd (serveAll rqs e)))) = Some v.
Proof.
  induction rqs as [|rq rest IH]; intros e m d Hid Hcid Hsz Hm H Hd Hbound Hctr.
  - cbn [serveAll snd length]. now rewrite Nat.add_0_r.
  - rewrite serveAll_cons. cbn [snd length] in *.
    replace (m + S (length rest))%nat with (S m + length rest)%nat by lia.
    assert (Hstep : lookup id (firstn (S m) (entries (snd (fst (serve rq e))))) = Some v).
    { apply serve_window; [lia|exact H|].
      intros Hissued. apply serve_issued in Hissued as [_ Heq].
      rewrite Hid in Heq.
      assert (Hinj : cid = AddUint64 (payloadIdCounter e) 1).
      { rewrite <- (Uint64_PutUint64 Hcid), Heq.
        apply Uint64_PutUint64, AddUint64_range. }
      rewrite Hctr in Hinj. unfold AddUint64 in Hinj.
      rewrite Zplus_mod_idemp_l in Hinj.
      unfold uint64_modulus in *. clear - Hinj Hcid Hd Hbound.
      Z.div_mod_to_equations. lia. }
    destruct (serve_counter_cases rq e) as [[_ Hs]|[_ Hs]].
    + apply (IH _ (S m) (d + 1) Hid Hcid);
        [now rewrite serve_size|lia|exact Hstep|lia|lia|].
      rewrite Hs, Hctr. unfold AddUint64. rewrite Zplus_mod_idemp_l.
      f_equal. lia.
    + apply (IH _ (S m) d Hid Hcid);
        [now rewrite serve_size|lia|exact Hstep|lia|lia|].
      now rewrite Hs.
Qed.

(** X14.  A prepared payload stays available through the next nine
    requests at least.  On a backend reached from [NewEngineBackend], after
    a successful prepare request has returned an identifier, and after any
    nine or fewer further requests of any kind, [GetPayloadV1] with that
    identifier still returns the payload it returned right after the
    prepare request. *)
Theorem X14_prepared_payload_survives_nine_requests :
  forall (mock : MockChain) (e0 e1 : EngineBackend) (before after : list Request)
         (h : ForkchoiceStateV1) (a : PayloadAttributesV1)
         (r : ForkchoiceUpdatedResult) (ev : list Event) (id : PayloadID),
    NewEngineBackend mock = Ok e0 ->
    ForkchoiceUpdatedV1 (Some h) (Some a) (snd (serveAll before e0)) = (Ok r, e1, ev) ->
    fcPayloadID r = Some id ->
    (length after <= 9)%nat ->
    (exists p, fst (fst (GetPayloadV1 id e1)) = Ok p)
    /\ fst (fst (GetPayloadV1 id (snd (serveAll after e1)))) =
       fst (fst (GetPayloadV1 id e1)).
Proof.
  intros mock e0 e1 before after h a r ev id Hnew Hprep Hid Hlen.
  destruct (reachable_invariant before Hnew) as (_ & Hsz & _ & _).
  set (e := snd (serveAll before e0)) in *.
  rewrite ForkchoiceUpdatedV1_prepare in Hprep. cbv zeta in Hprep.
  destruct AddNewBlock as [[bl|err] ch]; [|discriminate].
  destruct (BlockToPayload bl) as [p|err]; [|discriminate].
  injection Hprep as <- <- <-. cbn [fcPayloadID] in Hid. injection Hid as <-.
  set (n := AddUint64 (payloadIdCounter e) 1) in *.
  set (e1 := {| mockChain := ch; payloadIdCounter := n;
                recentPayloads := LRU.Add PayloadID_eq_dec (PutUint64 n)
                                    (IfacePayloadV1 p) (recentPayloads e) |}).
  assert (Hfirst : fst (fst (GetPayloadV1 (PutUint64 n) e1)) = Ok p).
  { rewrite GetPayloadV1_answer. cbn [recentPayloads e1].
    now rewrite LRUFacts.Peek_Add_same. }
  split; [now exists p|]. rewrite Hfirst.
  destruct (LRUWindow.Add_front PayloadID_eq_dec (PutUint64 n) (IfacePayloadV1 p)
              (recentPayloads e)) as (rest & Hfront & _).
  assert (Hw : lookup (PutUint64 n)
                 (firstn (1 + length after) (entries (snd (serveAll after e1)))) =
               Some (IfacePayloadV1 p)).
  { apply (@serveAll_window (PutUint64 n) (IfacePayloadV1 p) n after e1 1%nat 0).
    - reflexivity.
    - apply AddUint64_range.
    - cbn [recentPayloads e1]. now rewrite LRUFacts.size_Add.
    - lia.
    - cbn [recentPayloads e1]. rewrite Hfront. cbn [firstn LRU.lookup].
      destruct (PayloadID_eq_dec (PutUint64 n) (PutUint64 n)); [reflexivity|contradiction].
    - lia.
    - unfold uint64_modulus. lia.
    - cbn [payloadIdCounter e1]. rewrite Z.add_0_r. symmetry.
      apply Z.mod_small, AddUint64_range. }
  apply LRUWindow.lookup_firstn_all in Hw.
  rewrite GetPayloadV1_answer. unfold LRU.Peek. now rewrite Hw.
Qed.
End Availability.

(* ================================================================== *)
(** ** Decoding and encoding the header response *)

Section HeaderResponseJSON.
Import GetHeaderResponse.
Variables H E : Type.
Variable jsonMarshal : encoded H -> list Z + E.
Variable jsonUnmarshal : list Z -> decoded H + E.

(** X15.  [UnmarshalJSON] only ever overwrites.  When the input decodes,
    no error is returned, a field the input sets replaces the old one and a
    field the input leaves out keeps its old content; in particular a
    message that has a value still has one afterwards.  When the input
    does not decode, the decoder's error is returned and the message is
    untouched. *)
Theorem X15_unmarshal_overwrites_present_fields_only :
  forall (g : GetHeaderResponseMessage H) (input : list Z),
    (forall dec, jsonUnmarshal input = inl dec ->
       fst (UnmarshalJSON jsonUnmarshal g input) = None
       /\ Header (snd (UnmarshalJSON jsonUnmarshal g input)) =
            match decHeader dec with Some h => h | None => Header g end
       /\ Value (snd (UnmarshalJSON jsonUnmarshal g input)) =
            match decValue dec with Some v => Some v | None => Value g end)
    /\ (forall err, jsonUnmarshal input = inr err ->
          UnmarshalJSON jsonUnmarshal g input = (Some err, g))
    /\ (Value g <> None -> Value (snd (UnmarshalJSON jsonUnmarshal g input)) <> None).
Proof.
  intros g input. unfold UnmarshalJSON.
  destruct (jsonUnmarshal input) as [[[h|] [v|]]|err]; cbn [fst snd Header Value];
    (split; [intros dec [= <-]; cbn; auto|]);
    (split; [intros err' [=]; subst; auto|]);
    auto; discriminate.
Qed.

(** X16.  Decoding the same input a second time changes nothing more: the
    second call returns the same error, or none, and leaves the message as
    the first call left it. *)
Theorem X16_unmarshal_twice_is_once :
  forall (g : GetHeaderResponseMessage H) (input : list Z),
    UnmarshalJSON jsonUnmarshal (snd (UnmarshalJSON jsonUnmarshal g input)) input =
    UnmarshalJSON jsonUnmarshal g input.
Proof.
  intros g input. unfold UnmarshalJSON.
  destruct (jsonUnmarshal input) as [[[h|] [v|]]|err]; cbn [fst snd Header Value];
    reflexivity.
Qed.

End HeaderResponseJSON.

(* ================================================================== *)
(** ** What a started engine has *)

Section StartupFacts.
Import Startup.
Context {cc : ChainComponent}.
Variables Logger LogCmd TraceLogConfig Database HostError : Type.
Variable Create : LogCmd -> Logger + HostError.
Variable ReadFile : string -> list Z + HostError.
Variable Hex2Bytes : list Z -> list Z.
Variable NewDB : string -> Database + HostError.
Variable NewMockChain :
  option Logger -> ExecutionConsensusMock Logger -> string -> Database -> TraceLogConfig ->
  MockChain + HostError.
Variable RegisterApis : option EngineBackend -> option HostError.
Local Open Scope string_scope.


Lemma loadJwtSecret_inl (path : string) (jwt : list Z) :
  loadJwtSecret ReadFile Hex2Bytes path = inl jwt ->
  exists raw, ReadFile path = inl raw /\ jwt = Hex2Bytes raw /\ length jwt = 32%nat.
Proof.
  unfold loadJwtSecret. destruct (ReadFile path) as [raw|e]; [|discriminate].
  destruct (Nat.eqb_spec (length (Hex2Bytes raw)) 32) as [Hlen|Hlen]; cbn [negb];
    [|discriminate].
  intros [= <-]. exists raw. auto.
Qed.

(** X18.  [loadJwtSecret] returns a secret exactly when the file can be
    read and its contents decode to 32 bytes, and the secret is that
    decoding.  Otherwise it returns the error of the read unchanged, or the
    error "invalid length, expected 32-byte value" when the decoding has
    any other length, the empty one included. *)
Theorem X18_jwt_secret_has_32_bytes :
  forall (path : string),
    (forall jwt, loadJwtSecret ReadFile Hex2Bytes path = inl jwt <->
       exists raw, ReadFile path = inl raw /\ jwt = Hex2Bytes raw
                   /\ length jwt = 32%nat)
    /\ (forall err, loadJwtSecret ReadFile Hex2Bytes path = inr err ->
          (exists e, ReadFile path = inr e /\ err = hostError e)
          \/ (exists raw, ReadFile path = inl raw
                          /\ length (Hex2Bytes raw) <> 32%nat
                          /\ err = Errorf "invalid length, expected 32-byte value")).
Proof.
  intros path. unfold loadJwtSecret.
  destruct (ReadFile path) as [raw|e].
  - destruct (Nat.eqb_spec (length (Hex2Bytes raw)) 32) as [Hlen|Hlen]; cbn [negb].
    + split.
      * intros jwt. split.
        -- intros [= <-]. exists raw. auto.
        -- intros (raw' & [= <-] & -> & _). reflexivity.
      * intros err [=].
    + split.
      * intros jwt. split; [intros [=]|].
        intros (raw' & [= <-] & -> & Hl). contradiction.
      * intros err [= <-]. right. exists raw. auto.
  - split.
    + intros jwt. split; [intros [=]|intros (raw & [=] & _)].
    + intros err [= <-]. left. exists e. auto.
Qed.

(** X19.  When [Run] returns nil the engine is complete.  The secret in use
    is the decoding of the file at [JwtSecretPath] and has exactly 32
    bytes; the backend is a fresh one from [NewEngineBackend], with counter
    0 and an empty cache of capacity 10; and both servers are set up with
    the configured addresses and the same four timeouts, the HTTP server
    serving the authenticated RPC stack at "/" and refusing "/ws", the
    websocket server serving the authenticated websocket stack at both,
    each stack with the configured origins and that same secret. *)
Theorem X19_run_starts_complete_engine :
  forall (c c' : EngineCmd Logger LogCmd TraceLogConfig),
    Run Create ReadFile Hex2Bytes NewDB NewMockChain RegisterApis c = Returned None c' ->
    length (jwtSecret c') = 32%nat
    /\ (exists raw, ReadFile (JwtSecretPath c) = inl raw
                    /\ jwtSecret c' = Hex2Bytes raw)
    /\ (exists chain b,
           backend c' = Some b
           /\ NewEngineBackend chain = Ok b
           /\ mockChain b = chain
           /\ payloadIdCounter b = 0%Z
           /\ recentPayloads b = {| LRU.size := 10; LRU.evictList := [] |})
    /\ (exists s ws,
           srv c' = Some s /\ wsSrv c' = Some ws
           /\ Addr s = ListenAddr c /\ Addr ws = WebsocketAddr c
           /\ Mux s = [("/", HTTPHandlerStack (Cors c) (jwtSecret c')); ("/ws", WrongPort)]
           /\ Mux ws = [("/", WSHandlerStack (Cors c) (jwtSecret c'));
                        ("/ws", WSHandlerStack (Cors c) (jwtSecret c'))]
           /\ (ReadTimeout s, ReadHeaderTimeout s, WriteTimeout s, IdleTimeout s) =
              (TimeoutRead c, TimeoutReadHeader c, TimeoutWrite c, TimeoutIdle c)
           /\ (ReadTimeout ws, ReadHeaderTimeout ws, WriteTimeout ws, IdleTimeout ws) =
              (TimeoutRead c, TimeoutReadHeader c, TimeoutWrite c, TimeoutIdle c)).
Proof.
  intros c c' Hrun. unfold Run, initLogger in Hrun.
  destruct (Create (logCmd c)) as [logr|err]; [|discriminate].
  cbn [withLogger JwtSecretPath] in Hrun.
  destruct (loadJwtSecret ReadFile Hex2Bytes (JwtSecretPath c)) as [jwt|err] eqn:Hjwt;
    [|discriminate].
  apply loadJwtSecret_inl in Hjwt as (raw & Hread & -> & Hlen).
  destruct makeMockChain as [chain|err]; [|discriminate].
  destruct (NewEngineBackend chain) as [b|msg|] eqn:Hb; try discriminate.
  unfold startRPC in Hrun. cbn [withBackend withJwtSecret backend] in Hrun.
  destruct (RegisterApis (Some b)); [discriminate|].
  injection Hrun as <-. cbn.
  pose proof (NewEngineBackend_fresh Hb) as ->. cbn.
  split; [exact Hlen|].
  split; [eauto|].
  split; [exists chain; eexists; repeat split|].
  eexists. eexists. repeat split.
Qed.
End StartupFacts.

Section StartupFailures.
Import Startup.
Context {cc : ChainComponent}.
Variables Logger LogCmd TraceLogConfig Database HostError : Type.
Variable Create : LogCmd -> Logger + HostError.
Variable ReadFile : string -> list Z + HostError.
Variable Hex2Bytes : list Z -> list Z.
Variable NewDB : string -> Database + HostError.
Variable NewMockChain :
  option Logger -> ExecutionConsensusMock Logger -> string -> Database -> TraceLogConfig ->
  MockChain + HostError.
Variable RegisterApis : option EngineBackend -> option HostError.
Local Open Scope string_scope.


End StartupFailures.

(* ================================================================== *)
(** ** The added statements on the toy instances *)

(** On the toy chain: a payload on genesis with timestamp 5 is executed. *)
Lemma X1_witness :
  @NewPayloadV1 Toy.component (Some (Toy.payload 7 5)) Toy.backend0 =
    (Ok (status ExecutionValid),
     @Build_EngineBackend Toy.component
       (snd (Toy.process Toy.chain0 (Toy.payload 7 5))) 0
       {| LRU.size := 10; LRU.evictList := [] |},
     [CallGetHeaderByHash 7; CallProcessPayload (Toy.payload 7 5);
      Log Info "Executed payload"]).
Proof.
  apply (@X1_new_payload_executed_valid Toy.component Toy.backend0 (Toy.payload 7 5)
           {| Number := 0; Time := 0; Difficulty := 100 |} 100
           (Toy.payload 7 5) (snd (Toy.process Toy.chain0 (Toy.payload 7 5)))).
  - reflexivity.
  - reflexivity.
  - reflexivity.
  - simpl. lia.
  - reflexivity.
Defined.

(** On the toy chain: a payload on genesis with timestamp 0 fails to
    execute. *)
Lemma X2_witness :
  @NewPayloadV1 Toy.component (Some (Toy.payload 7 0)) Toy.backend0 =
    (Err (@chainError Toy.component "timestamp too old"%string), Toy.backend0,
     [CallGetHeaderByHash 7; CallProcessPayload (Toy.payload 7 0);
      Log Error "Failed to execute payload"]).
Proof.
  apply (@X2_new_payload_execution_error_propagates Toy.component Toy.backend0
           (Toy.payload 7 0) {| Number := 0; Time := 0; Difficulty := 100 |} 100
           "timestamp too old"%string Toy.chain0).
  - reflexivity.
  - reflexivity.
  - reflexivity.
  - simpl. lia.
  - reflexivity.
Defined.

(** On the toy chain without a terminal total difficulty. *)
Lemma X3_witness :
  @NewPayloadV1 Toy.component (Some (Toy.payload 7 5)) ToyMore.backendNoTTD =
    (Panic, ToyMore.backendNoTTD, [CallGetHeaderByHash 7]).
Proof.
  apply (@X3_new_payload_unset_ttd_panics Toy.component ToyMore.backendNoTTD
           (Toy.payload 7 5) {| Number := 0; Time := 0; Difficulty := 100 |}).
  - reflexivity.
  - reflexivity.
  - reflexivity.
Defined.

(** On the toy chain: the status of an executed payload, and the error of a
    payload that fails to execute. *)
Lemma X4_witness :
  LatestValidHash (status ExecutionValid) = None
  /\ exists p ce,
       Some (Toy.payload 7 0) = Some p
       /\ fst (@ProcessPayload Toy.component (mockChain Toy.backend0) p) = inr ce
       /\ @chainError Toy.component "timestamp too old"%string = chainError ce.
Proof.
  split.
  - apply (proj1 (@X4_new_payload_results Toy.component Toy.backend0
                    (Some (Toy.payload 7 5))) (status ExecutionValid) eq_refl).
  - apply (proj2 (@X4_new_payload_results Toy.component Toy.backend0
                    (Some (Toy.payload 7 0)))
             (@chainError Toy.component "timestamp too old"%string) eq_refl).
Defined.

(** On the toy chain: the payload prepared on genesis is fetched back. *)
Lemma X6_witness :
  exists id bl p,
    Some (PutUint64 1) = Some id
    /\ fst (Toy.addBlock Toy.chain0 7 0 1000 30000000 {| createTxs := fun _ => [] |}
              0 [] [] false) = inl bl
    /\ inl bl = @inl ExecutionPayloadV1 string p
    /\ @GetPayloadV1 Toy.component id
         (snd (fst (@ForkchoiceUpdatedV1 Toy.component (Some (Toy.heads 7))
                      (Some (Toy.attrs 1000)) Toy.backend0))) =
       (Ok p,
        snd (fst (@ForkchoiceUpdatedV1 Toy.component (Some (Toy.heads 7))
                    (Some (Toy.attrs 1000)) Toy.backend0)),
        [Log Info "Consensus client retrieved prepared payload"]).
Proof.
  exact (@X6_prepared_payload_is_retrievable Toy.component Toy.backend0 _
           (Toy.heads 7) (Toy.attrs 1000) _ _ eq_refl).
Defined.

(** On the toy chain, after one prepare request: fetching identifier 1
    twice. *)
Lemma X7_witness :
  fst (fst (@GetPayloadV1 Toy.component (Toy.id 1)
              (snd (fst (@GetPayloadV1 Toy.component (Toy.id 1)
                           (snd (@serveAll Toy.component [Toy.prepare 7 1000]
                                   Toy.backend0))))))) =
  Ok (Toy.payload 7 1000).
Proof.
  exact (f_equal (fun x => fst (fst x))
           (proj1 (@X7_get_payload_is_repeatable Toy.component
                     (snd (@serveAll Toy.component [Toy.prepare 7 1000] Toy.backend0))
                     (Toy.id 1) (Toy.payload 7 1000) eq_refl))).
Defined.

(** On the toy chain: the error of a request for an identifier never
    handed out. *)
Lemma X8_witness :
  @rpcError Toy.component "unknown payload %d" (Toy.id 5) UnavailablePayload =
    rpcError "unknown payload %d" (Toy.id 5) UnavailablePayload
  /\ snd (fst (@GetPayloadV1 Toy.component (Toy.id 5) Toy.backend0)) = Toy.backend0.
Proof.
  exact (proj2 (proj2 (proj2 (proj2
           (@X8_get_payload_frame Toy.component Toy.backend0 (Toy.id 5)))))
           _ eq_refl).
Defined.

(** On the toy chain: the error of a prepare request on the unknown head 9. *)
Lemma X9_witness :
  exists h a ce,
    Some (Toy.heads 9) = Some h /\ Some (Toy.attrs 1000) = Some a
    /\ @chainError Toy.component "unknown parent"%string = chainError ce
    /\ (fst (@AddNewBlock Toy.component (mockChain Toy.backend0) (HeadBlockHash h)
               (SuggestedFeeRecipient a) (Timestamp a)
               (@GasLimit Toy.component (mockChain Toy.backend0))
               {| createTxs := fun _ => [] |} (PrevRandao a) [] [] false) = inr ce
        \/ exists bl,
             fst (@AddNewBlock Toy.component (mockChain Toy.backend0) (HeadBlockHash h)
                    (SuggestedFeeRecipient a) (Timestamp a)
                    (@GasLimit Toy.component (mockChain Toy.backend0))
                    {| createTxs := fun _ => [] |} (PrevRandao a) [] [] false) = inl bl
             /\ @BlockToPayload Toy.component bl = inr ce).
Proof.
  exact (@X9_forkchoice_error_provenance Toy.component Toy.backend0
           (Some (Toy.heads 9)) (Some (Toy.attrs 1000)) _ eq_refl).
Defined.

(** On the toy chain: two forkchoice states with head 7 and different safe
    and finalized hashes. *)
Lemma X10_witness :
  fst (@ForkchoiceUpdatedV1 Toy.component
         (Some {| HeadBlockHash := 7; SafeBlockHash := 1; FinalizedBlockHash := 2 |})
         (Some (Toy.attrs 1000)) Toy.backend0) =
  fst (@ForkchoiceUpdatedV1 Toy.component (Some (Toy.heads 7))
         (Some (Toy.attrs 1000)) Toy.backend0).
Proof.
  apply (@X10_forkchoice_uses_head_only Toy.component Toy.backend0
           {| HeadBlockHash := 7; SafeBlockHash := 1; FinalizedBlockHash := 2 |}
           (Toy.heads 7) (Some (Toy.attrs 1000))).
  reflexivity.
Defined.

(** The counter values 258 and 1. *)
Lemma X11_witness :
  PutUint64 258 = [0; 0; 0; 0; 0; 0; 1; 2]%Z
  /\ Uint64 (PutUint64 258) = 258%Z
  /\ PutUint64 258 <> PutUint64 1.
Proof.
  destruct (@X11_payload_id_encoding_round_trip 258 1) as (_ & _ & Hrt & Hinj).
  - unfold uint64_modulus. lia.
  - unfold uint64_modulus. lia.
  - split; [reflexivity|]. split; [exact Hrt|].
    intros Heq. apply Hinj in Heq. discriminate Heq.
Defined.

(** On the toy chain: three prepare requests, one of them failing, among
    other requests. *)
Lemma X12_witness :
  payloadIdCounter
    (snd (@serveAll Toy.component
            [Toy.prepare 7 1; engine_getPayloadV1 (Toy.id 1); Toy.prepare 9 2;
             engine_newPayloadV1 None; Toy.prepare 7 3]
            Toy.backend0)) = (3 mod uint64_modulus)%Z.
Proof.
  exact (@X12_counter_counts_prepare_requests Toy.component Toy.chain0 Toy.backend0
           [Toy.prepare 7 1; engine_getPayloadV1 (Toy.id 1); Toy.prepare 9 2;
            engine_newPayloadV1 None; Toy.prepare 7 3] eq_refl).
Defined.

(** On the toy chain: two prepare requests with a retrieval between them. *)
Lemma X13_witness :
  Uint64 (Toy.id 2) = ((Uint64 (Toy.id 1) + 1) mod uint64_modulus)%Z
  /\ Toy.id 1 <> Toy.id 2.
Proof.
  exact (@X13_consecutive_prepares_consecutive_ids Toy.component
           Toy.backend0 _ _ (Toy.heads 7) (Toy.heads 7) (Toy.attrs 1) (Toy.attrs 2)
           _ _ _ _ [engine_getPayloadV1 (Toy.id 1)] (Toy.id 1) (Toy.id 2)
           eq_refl eq_refl eq_refl eq_refl eq_refl).
Defined.

(** On the toy chain: the payload prepared first is still there after nine
    more prepare requests. *)
Lemma X14_witness :
  fst (fst (@GetPayloadV1 Toy.component (Toy.id 1)
              (snd (@serveAll Toy.component (repeat (Toy.prepare 7 2) 9)
                      (snd (fst (@ForkchoiceUpdatedV1 Toy.component (Some (Toy.heads 7))
                                   (Some (Toy.attrs 1)) Toy.backend0))))))) =
  fst (fst (@GetPayloadV1 Toy.component (Toy.id 1)
              (snd (fst (@ForkchoiceUpdatedV1 Toy.component (Some (Toy.heads 7))
                           (Some (Toy.attrs 1)) Toy.backend0))))).
Proof.
  refine (proj2 (@X14_prepared_payload_survives_nine_requests Toy.component
                   Toy.chain0 Toy.backend0 _ [] (repeat (Toy.prepare 7 2) 9)
                   (Toy.heads 7) (Toy.attrs 1) _ _ (Toy.id 1)
                   eq_refl eq_refl eq_refl _)).
  simpl. lia.
Defined.

(** Nine is the most that can be promised: after ten more successful
    prepare requests the first payload is gone. *)
Example tenth_prepare_evicts_the_first :
  fst (fst (@GetPayloadV1 Toy.component (Toy.id 1)
              (snd (@serveAll Toy.component (repeat (Toy.prepare 7 2) 10)
                      (snd (fst (@ForkchoiceUpdatedV1 Toy.component (Some (Toy.heads 7))
                                   (Some (Toy.attrs 1)) Toy.backend0))))))) =
  Err (@rpcError Toy.component "unknown payload %d" (Toy.id 1) UnavailablePayload).
Proof. vm_compute. reflexivity. Qed.

(** With the toy codec: an input that sets only the header. *)
Lemma X15_witness :
  GetHeaderResponse.Value
    (snd (GetHeaderResponse.UnmarshalJSON ToyMore.jsonUnmarshal
            {| GetHeaderResponse.Header := 3; GetHeaderResponse.Value := Some 4 |}
            [5; 0]%Z)) = Some 4%Z
  /\ GetHeaderResponse.Header
       (snd (GetHeaderResponse.UnmarshalJSON ToyMore.jsonUnmarshal
               {| GetHeaderResponse.Header := 3; GetHeaderResponse.Value := Some 4 |}
               [5; 0]%Z)) = 5%Z.
Proof.
  destruct (proj1 (@X15_unmarshal_overwrites_present_fields_only Z string
                     ToyMore.jsonUnmarshal
                     {| GetHeaderResponse.Header := 3; GetHeaderResponse.Value := Some 4 |}
                     [5; 0]%Z)
              {| GetHeaderResponse.decHeader := Some 5%Z;
                 GetHeaderResponse.decValue := None |} eq_refl)
    as (_ & Hh & Hv).
  split; [exact Hv|exact Hh].
Defined.


(** With the toy host: the file "jwt.hex". *)
Lemma X18_witness :
  Startup.loadJwtSecret ToyMore.readFile (fun raw => raw) "jwt.hex" =
    inl (repeat 171%Z 32).
Proof.
  apply (proj1 (@X18_jwt_secret_has_32_bytes string ToyMore.readFile (fun raw => raw)
                  "jwt.hex")).
  exists (repeat 171%Z 32). repeat split.
Defined.

(** With the toy host: starting with the secret file "jwt.hex". *)
Lemma X19_witness :
  exists c',
    ToyMore.run "jwt.hex" = Startup.Returned None c'
    /\ length (Startup.jwtSecret c') = 32%nat.
Proof.
  eexists. split.
  - vm_compute. reflexivity.
  - refine (proj1 (@X19_run_starts_complete_engine Toy.component unit unit unit unit string
                     (fun _ => inl tt) ToyMore.readFile (fun raw => raw) (fun _ => inl tt)
                     (fun _ _ _ _ _ => inl Toy.chain0) (fun _ => None)
                     (ToyMore.command "jwt.hex") _ eq_refl)).
Defined.

